(** * kedro-dolt-demo: the [KedroDolt] pipeline hooks

    A shallow embedding of [src/kedro_dolt_demo/hooks.py].  The hooks object
    keeps a few scalar fields and talks to a Dolt SQL server through a
    pymysql connection.  The embedding threads the object and the server
    through a small state-and-exception monad which also records every call
    made on the client, so that statements about "which SQL statement is
    issued, and when" are statements about the recorded trace.

    The two registration hooks ([register_config_loader],
    [register_catalog]) only forward to kedro and are left out. *)

From Stdlib Require Import ZArith String Ascii List.
From stdpp Require Import base gmap strings list.

Set Warnings "-register-all".
Set Default Proof Using "Type".

(** ** Python values *)

(** The values that flow through the hooks: [None], [str] and [dict] with
    string keys ([run_params] is a [Dict[str, Any]], a [DictCursor] row is a
    dict from column names to values). *)
Inductive pyval :=
| PyNone
| PyStr (s : string)
| PyDict (d : gmap string pyval).

Abbreviation row := (gmap string pyval).

(** The exceptions that can travel through the hooks.  An exception raised
    by the client is identified by its [repr()] text, which is all the hooks
    ever look at. *)
Inductive exn :=
| KeyError (key : string)
| TypeError (msg : string)
| OperationalError (repr : string)   (* pymysql.err.OperationalError *)
| ClientError (repr : string).       (* every other exception of the client *)

Inductive result (A : Type) :=
| Ok (a : A)
| Raise (e : exn).
Arguments Ok {A} a.
Arguments Raise {A} e.

(** [v is None] *)
Definition is_none (v : pyval) : bool :=
  match v with PyNone => true | _ => false end.

(** [fetchone()] gives a row dict or [None]. *)
Definition of_fetch (r : option row) : pyval :=
  match r with Some d => PyDict d | None => PyNone end.

(** [d[k]] on a dict whose static type is known ([run_params]). *)
Definition dict_getitem (d : gmap string pyval) (k : string) : result pyval :=
  match d !! k with
  | Some v => Ok v
  | None => Raise (KeyError k)
  end.

(** [v[k]] with a string key. *)
Definition py_getitem (v : pyval) (k : string) : result pyval :=
  match v with
  | PyDict d => dict_getitem d k
  | PyStr _ => Raise (TypeError "string indices must be integers")
  | PyNone => Raise (TypeError "'NoneType' object is not subscriptable")
  end.

(** [k in v] with a string key: key membership on a dict, substring test on
    a string. *)
Definition py_contains (k : string) (v : pyval) : result bool :=
  match v with
  | PyDict d => Ok (bool_decide (is_Some (d !! k)))
  | PyStr s => Ok (match String.index 0 k s with Some _ => true | None => false end)
  | PyNone => Raise (TypeError "argument of type 'NoneType' is not iterable")
  end.

(** [str()] of a dict belongs to the Python runtime; it is a parameter of
    the development. *)
Class DictRepr := dict_repr : gmap string pyval → string.

(** What an f-string puts in place of [{v}]. *)
Definition py_str `{DictRepr} (v : pyval) : string :=
  match v with
  | PyNone => "None"
  | PyStr s => s
  | PyDict d => dict_repr d
  end.

(** ** The pymysql client *)

(** The keyword arguments of [pymysql.connect] (the cursor class is always
    [DictCursor]). *)
Record conn_params := {
  cp_host : string;
  cp_user : string;
  cp_port : Z;
  cp_password : string;
  cp_database : string;
}.

(** The part of the client the hooks use.  [W] is the state of everything
    on the other side of the socket.  A call that can raise answers
    [Some e] when it does. *)
Class Client (W : Type) := {
  connect : conn_params → W → option exn * W;
  execute : string → W → option exn * W;
  fetchone : W → option row * W;
  commit : W → option exn * W;
  cursor_close : W → W;
  close : W → W;
}.

(** One entry per call on the client, with its answer, and one per warning
    sent to the logger. *)
Inductive event :=
| EvConnect (p : conn_params) (r : option exn)
| EvExecute (sql : string) (r : option exn)
| EvFetchone (r : option row)
| EvCommit (r : option exn)
| EvCursorClose
| EvClose
| EvWarning (msg : string).

(** ** The hooks object *)

Record KedroDolt := {
  _database : string;
  _user : string;
  _port : Z;
  _host : string;
  _password : string;
  _branch : pyval;
  _original_branch : pyval;
}.

(** [KedroDolt.__init__] *)
Definition __init__ (database : string) (branch : pyval) (port : Z)
    (host user password : string) : KedroDolt :=
  {| _database := database;
     _user := user;
     _port := port;
     _host := host;
     _password := password;
     _branch := branch;
     _original_branch := PyNone |}.

(** [KedroDolt(database)], every other argument at its default. *)
Definition KedroDolt_default (database : string) : KedroDolt :=
  __init__ database (PyStr "master") 3306 "localhost" "root" EmptyString.

Definition set_branch (v : pyval) (s : KedroDolt) : KedroDolt :=
  {| _database := _database s; _user := _user s; _port := _port s;
     _host := _host s; _password := _password s;
     _branch := v; _original_branch := _original_branch s |}.

Definition set_original_branch (v : pyval) (s : KedroDolt) : KedroDolt :=
  {| _database := _database s; _user := _user s; _port := _port s;
     _host := _host s; _password := _password s;
     _branch := _branch s; _original_branch := v |}.

(** ** The monad of the hooks *)

Section Hooks.
Context {W : Type} `{!Client W} `{!DictRepr}.

(** The hooks object together with the server it talks to. *)
Record machine := Machine { self : KedroDolt; server : W }.

(** What a computation leaves behind: its result or the exception it
    raised, the machine, and the calls it made, oldest first. *)
Record outcome (A : Type) := Outcome {
  res : result A;
  final : machine;
  trace : list event;
}.
Arguments Outcome {A} res final trace.
Arguments res {A} o.
Arguments final {A} o.
Arguments trace {A} o.

Definition M (A : Type) : Type := machine → outcome A.

Definition ret {A} (a : A) : M A := λ m, Outcome (Ok a) m [].

Definition raise {A} (e : exn) : M A := λ m, Outcome (Raise e) m [].

Definition bind {A B} (c : M A) (k : A → M B) : M B := λ m,
  let o := c m in
  match res o with
  | Ok a => let o' := k a (final o) in
            Outcome (res o') (final o') (trace o ++ trace o')
  | Raise e => Outcome (Raise e) (final o) (trace o)
  end.

(** [try: c  finally: cleanup], for a cleanup that cannot raise. *)
Definition finally {A} (c : M A) (cleanup : M unit) : M A := λ m,
  let o := c m in
  let o' := cleanup (final o) in
  Outcome (res o) (final o') (trace o ++ trace o').

Definition lift {A} (r : result A) : M A :=
  match r with Ok a => ret a | Raise e => raise e end.

Definition get_self : M KedroDolt := λ m, Outcome (Ok (self m)) m [].

Definition modify_self (f : KedroDolt → KedroDolt) : M unit := λ m,
  Outcome (Ok tt) (Machine (f (self m)) (server m)) [].

(** A client call that can raise. *)
Definition call (f : W → option exn * W) (ev : option exn → event) : M unit := λ m,
  let '(r, w) := f (server m) in
  Outcome (match r with Some e => Raise e | None => Ok tt end)
          (Machine (self m) w) [ev r].

(** A client call that cannot. *)
Definition call_total (f : W → W) (ev : event) : M unit := λ m,
  Outcome (Ok tt) (Machine (self m) (f (server m))) [ev].

Definition do_connect (p : conn_params) : M unit := call (connect p) (EvConnect p).
Definition do_execute (sql : string) : M unit := call (execute sql) (EvExecute sql).
Definition do_commit : M unit := call commit EvCommit.
Definition do_cursor_close : M unit := call_total cursor_close EvCursorClose.
Definition do_close : M unit := call_total close EvClose.

Definition do_fetchone : M pyval := λ m,
  let '(r, w) := fetchone (server m) in
  Outcome (Ok (of_fetch r)) (Machine (self m) w) [EvFetchone r].

(** [logger.warning(msg)] *)
Definition warning (msg : string) : M unit := λ m, Outcome (Ok tt) m [EvWarning msg].

(** [run c m Q]: the outcome of [c] started on [m] satisfies [Q]. *)
Definition run {A} (c : M A) (m : machine)
    (Q : result A → machine → list event → Prop) : Prop :=
  Q (res (c m)) (final (c m)) (trace (c m)).

End Hooks.

Arguments machine W : clear implicits.
Arguments outcome W A : clear implicits.
Arguments M W A : clear implicits.
Arguments Outcome {W A} res final trace.
Arguments res {W A} o.
Arguments final {W A} o.
Arguments trace {W A} o.
Arguments Machine {W} self server.
Arguments self {W} m.
Arguments server {W} m.
Arguments run {W A} c m Q.

Global Instance M_ret {W} : MRet (M W) := @ret W.
Global Instance M_bind {W} : MBind (M W) := λ A B k c, bind c k.

(** ** The hooks *)

Section KedroDolt.
Context {W : Type} `{!Client W} `{!DictRepr}.

(** The decorator [log_pymysql_error]: an [OperationalError] raised by the
    wrapped function is logged with its [repr()] and the call answers
    [None]; everything else goes through. *)
Definition log_pymysql_error (f : M W pyval) : M W pyval := λ m,
  let o := f m in
  match res o with
  | Raise (OperationalError e) =>
      let o' := warning e (final o) in
      Outcome (Ok PyNone) (final o') (trace o ++ trace o')
  | _ => o
  end.

(** The arguments [KedroDolt.connection] hands to [pymysql.connect]. *)
Definition params (s : KedroDolt) : conn_params :=
  {| cp_host := _host s;
     cp_user := _user s;
     cp_port := _port s;
     cp_password := _password s;
     cp_database := _database s |}.

(** [KedroDolt.connection] *)
Definition connection : M W unit :=
  s ← get_self;
  do_connect (params s).

(** [with self.connection() as connection: body]: the connection is closed
    on every way out of the body. *)
Definition with_connection {A} (body : M W A) : M W A :=
  connection;; finally body do_close.

(** [with connection.cursor() as cursor: body] *)
Definition with_cursor {A} (body : M W A) : M W A :=
  finally body do_cursor_close.

(** The statements, as the f-strings build them. *)
Definition sql_active_branch : string := "select active_branch() as br".
Definition sql_branch_exists (branch : string) : string :=
  "select * from dolt_branches where name = '" +:+ branch +:+ "'".
Definition sql_checkout_new (branch : string) : string :=
  "select dolt_checkout('-b', '" +:+ branch +:+ "')".
Definition sql_checkout (branch : string) : string :=
  "select dolt_checkout('" +:+ branch +:+ "')".
Definition sql_status : string := "select * from dolt_status".
Definition sql_commit (message : string) : string :=
  "select dolt_commit('-am', '" +:+ message +:+ "') as c".
Definition sql_set_head (database commit : string) : string :=
  "set @@" +:+ database +:+ "_head = '" +:+ commit +:+ "'".

(** [KedroDolt._commit_message] *)
Definition _commit_message (run_params : gmap string pyval) : M W string :=
  run_id ← lift (dict_getitem run_params "run_id");
  mret ("Update from kedro run: " +:+ py_str run_id).

(** [KedroDolt._commit], before decoration. *)
Definition _commit__wrapped (message : string) : M W pyval :=
  with_connection (
    res ← with_cursor (
      do_execute sql_status;;
      status ← do_fetchone;
      if is_none status then mret PyNone
      else
        do_execute (sql_commit message);;
        fetched ← do_fetchone;
        res ← lift (py_getitem fetched "c");
        s ← get_self;
        do_execute (sql_set_head (_database s) (py_str res));;
        mret res);
    do_commit;;
    mret res).

Definition _commit (message : string) : M W pyval :=
  log_pymysql_error (_commit__wrapped message).

(** [KedroDolt._active_branch], before decoration. *)
Definition _active_branch__wrapped : M W pyval :=
  with_connection (
    with_cursor (
      do_execute sql_active_branch;;
      res ← do_fetchone;
      lift (py_getitem res "br"))).

Definition _active_branch : M W pyval :=
  log_pymysql_error _active_branch__wrapped.

(** [KedroDolt._checkout_branch], before decoration. *)
Definition _checkout_branch__wrapped (branch : pyval) : M W pyval :=
  with_connection (
    with_cursor (
      do_execute (sql_branch_exists (py_str branch));;
      res ← do_fetchone;
      if is_none res
      then do_execute (sql_checkout_new (py_str branch))
      else do_execute (sql_checkout (py_str branch)));;
    do_commit;;
    mret PyNone).

Definition _checkout_branch (branch : pyval) : M W pyval :=
  log_pymysql_error (_checkout_branch__wrapped branch).

(** [run_params["extra_params"]["branch"]] *)
Definition branch_param (run_params : gmap string pyval) : M W pyval :=
  extra_params ← lift (dict_getitem run_params "extra_params");
  lift (py_getitem extra_params "branch").

(** The condition of [before_pipeline_run]; [and] evaluates its right
    operand only when the left one is true. *)
Definition branch_requested (run_params : gmap string pyval) : M W bool :=
  extra_params ← lift (dict_getitem run_params "extra_params");
  present ← lift (py_contains "branch" extra_params);
  if present : bool
  then branch ← branch_param run_params; mret (negb (is_none branch))
  else mret false.

(** [KedroDolt.before_pipeline_run] *)
Definition before_pipeline_run (run_params : gmap string pyval) : M W pyval :=
  requested ← branch_requested run_params;
  if requested : bool
  then
    branch ← branch_param run_params;
    modify_self (set_branch branch);;
    original ← _active_branch;
    modify_self (set_original_branch original);;
    s ← get_self;
    _checkout_branch (_branch s);;
    mret PyNone
  else mret PyNone.

(** [KedroDolt.after_pipeline_run] *)
Definition after_pipeline_run (run_params : gmap string pyval) : M W pyval :=
  commit_message ← _commit_message run_params;
  commit ← _commit commit_message;
  s ← get_self;
  (if is_none (_original_branch s) then mret PyNone
   else _checkout_branch (_original_branch s));;
  mret commit.

End KedroDolt.

(** ** The traces of a run *)

(** The exception a client call raised, if it did. *)
Definition failure (ev : event) : option exn :=
  match ev with
  | EvConnect _ r | EvExecute _ r | EvCommit r => r
  | _ => None
  end.

(** The exceptions raised by the client during a run, oldest first. *)
Definition raised (t : list event) : list exn := omap failure t.

(** No client call of the run raised. *)
Definition clean (t : list event) : bool :=
  forallb (λ ev, match failure ev with None => true | Some _ => false end) t.

(** The statements handed to [cursor.execute], oldest first. *)
Definition statements (t : list event) : list string :=
  omap (λ ev, match ev with EvExecute sql _ => Some sql | _ => None end) t.

(** What the successive [fetchone()] calls answered. *)
Definition fetched (t : list event) : list (option row) :=
  omap (λ ev, match ev with EvFetchone r => Some r | _ => None end) t.

(** The warnings logged. *)
Definition warnings (t : list event) : list string :=
  omap (λ ev, match ev with EvWarning msg => Some msg | _ => None end) t.

(** A statement that calls [dolt_commit]. *)
Definition is_commit_statement (sql : string) : bool :=
  String.prefix "select dolt_commit(" sql.

(** A statement that calls [dolt_checkout], in either form. *)
Definition is_checkout_statement (sql : string) : bool :=
  String.prefix "select dolt_checkout(" sql.

(** [swallowed m e o]: if the client raised [OperationalError e] during the
    run [o] started on [m], the run returned [None], logged [e] and nothing
    else, as the last thing it did, and left the hooks object alone. *)
Definition swallowed {W} (m : machine W) (e : string) (o : outcome W pyval) : Prop :=
  OperationalError e ∈ raised (trace o) →
  res o = Ok PyNone ∧
  warnings (trace o) = [e] ∧
  last (trace o) = Some (EvWarning e) ∧
  self (final o) = self m.

(** The answers to the successive [pymysql.connect] calls. *)
Definition connects (t : list event) : list (option exn) :=
  omap (λ ev, match ev with EvConnect _ r => Some r | _ => None end) t.

(** Where a run stands with its connection: none open, a connection with
    its cursor open, or a connection whose cursor has been closed. *)
Inductive session :=
| NoConnection
| CursorOpen
| CursorClosed.

(** The calls each stage admits.  Statements and [fetchone()] need an open
    cursor; [commit()] and [close()] a connection whose cursor is closed; a
    connection is opened, and a warning logged, only when none is open. *)
Definition session_step (s : session) (ev : event) : option session :=
  match s, ev with
  | NoConnection, EvConnect _ None => Some CursorOpen
  | NoConnection, EvConnect _ (Some _) => Some NoConnection
  | NoConnection, EvWarning _ => Some NoConnection
  | CursorOpen, (EvExecute _ _ | EvFetchone _) => Some CursorOpen
  | CursorOpen, EvCursorClose => Some CursorClosed
  | CursorClosed, EvCommit _ => Some CursorClosed
  | CursorClosed, EvClose => Some NoConnection
  | _, _ => None
  end.

(** The stage a trace ends in, when every call of it was admitted. *)
Fixpoint session_after (s : session) (t : list event) : option session :=
  match t with
  | [] => Some s
  | ev :: t' =>
      match session_step s ev with
      | Some s' => session_after s' t'
      | None => None
      end
  end.

(** [TypeError] and [KeyError] come from the hooks' own lookups;
    [ClientError] stands for what the client raises besides
    [OperationalError]. *)
Definition is_operational (e : exn) : bool :=
  match e with OperationalError _ => true | _ => false end.

(** [propagated m e o]: if the client raised [e] during the run [o] started
    on [m], and [e] is not an [OperationalError], the run raised [e], logged
    nothing and left the hooks object alone. *)
Definition propagated {W} (m : machine W) (e : exn) (o : outcome W pyval) : Prop :=
  e ∈ raised (trace o) → is_operational e = false →
  res o = Raise e ∧ warnings (trace o) = [] ∧ self (final o) = self m.

(** A run of one decorated operation: it calls [pymysql.connect] once, and
    its calls follow the stages above, from no connection to no
    connection. *)
Definition disciplined {W} (o : outcome W pyval) : Prop :=
  session_after NoConnection (trace o) = Some NoConnection ∧
  length (connects (trace o)) = 1.

(** A run of a hook: the same, with at most two connections. *)
Definition disciplined_hook {W} (o : outcome W pyval) : Prop :=
  session_after NoConnection (trace o) = Some NoConnection ∧
  length (connects (trace o)) ≤ 2.

(** Every [pymysql.connect] of the trace was given the arguments [p]. *)
Definition connects_with (p : conn_params) (t : list event) : Prop :=
  Forall (λ ev, match ev with EvConnect p' _ => p' = p | _ => True end) t.

(** A connection attempt that failed with an [OperationalError]. *)
Definition refused (r : option exn) : bool :=
  match r with Some (OperationalError _) => true | _ => false end.

(** [gave_up o]: if every connection attempt of the run [o] of a decorated
    operation was refused, the run executed and fetched nothing, logged one
    warning and returned [None]. *)
Definition gave_up {W} (o : outcome W pyval) : Prop :=
  forallb refused (connects (trace o)) = true →
  res o = Ok PyNone ∧
  statements (trace o) = [] ∧
  fetched (trace o) = [] ∧
  length (warnings (trace o)) = 1.

(** ** A model of the versioned database *)

Module Dolt.

(** Modelled from the spec: the Dolt SQL server is not part of the
    repository.  The model follows the specification's description of the
    versioned database (section 2) and its table of statements (section 6):
    one database with a set of branches, one of them active, a set of
    tables with uncommitted changes, and a log of commits.  A session
    holds the connection state, the unread rows of the last statement and
    the [@@<database>_head] variable. *)
Record state := State {
  reachable : bool;
  database : string;
  active : string;
  branches : gset string;
  changed : list string;
  commits : list (string * string * string);
  hash : nat → string;
  connected : bool;
  rows : list row;
  head_var : option string;
}.

Definition with_session (c : bool) (rs : list row) (h : option string)
    (d : state) : state :=
  State (reachable d) (database d) (active d) (branches d) (changed d)
         (commits d) (hash d) c rs h.

Definition with_rows (rs : list row) (d : state) : state :=
  with_session (connected d) rs (head_var d) d.

Definition with_active (b : string) (d : state) : state :=
  State (reachable d) (database d) b ({[ b ]} ∪ branches d) (changed d)
         (commits d) (hash d) (connected d) [] (head_var d).

Definition with_commit (message ref : string) (d : state) : state :=
  State (reachable d) (database d) (active d) (branches d) []
         ((active d, message, ref) :: commits d) (hash d) (connected d)
         [ {[ "c" := PyStr ref ]} ] (head_var d).

(** What the pipeline does between the two hooks, as far as the database
    can tell: it writes tables. *)
Definition pipeline_writes (tables : list string) (d : state) : state :=
  State (reachable d) (database d) (active d) (branches d)
         (tables ++ changed d) (commits d) (hash d) (connected d) (rows d)
         (head_var d).

(** Text that can stand between single quotes in a statement and be read
    back unchanged. *)
Fixpoint sql_safe (s : string) : bool :=
  match s with
  | EmptyString => true
  | String c s' =>
      negb (Ascii.eqb c "'") && negb (Ascii.eqb c "\") && sql_safe s'
  end.

Fixpoint strip_prefix (p s : string) : option string :=
  match p, s with
  | EmptyString, _ => Some s
  | String a p', String b s' => if Ascii.eqb a b then strip_prefix p' s' else None
  | String _ _, EmptyString => None
  end.

Fixpoint strip_suffix (q s : string) : option string :=
  if String.eqb s q then Some EmptyString
  else match s with
       | EmptyString => None
       | String c s' => String c <$> strip_suffix q s'
       end.

(** The text between [pre] and [post], when it is a well-formed literal. *)
Definition between (pre post s : string) : option string :=
  body ← strip_prefix pre s;
  lit ← strip_suffix post body;
  if sql_safe lit then Some lit else None.

Inductive stmt :=
| SActiveBranch
| SBranchExists (name : string)
| SCheckoutNew (name : string)
| SCheckout (name : string)
| SStatus
| SCommit (message : string)
| SSetHead (commit : string).

(** The seven statement shapes of the wire interface. *)
Definition parse (db s : string) : option stmt :=
  if String.eqb s "select active_branch() as br" then Some SActiveBranch
  else if String.eqb s "select * from dolt_status" then Some SStatus
  else match between "select * from dolt_branches where name = '" "'" s with
  | Some n => Some (SBranchExists n)
  | None =>
  match between "select dolt_checkout('" "')" s with
  | Some n => Some (SCheckout n)
  | None =>
  match between "select dolt_checkout('-b', '" "')" s with
  | Some n => Some (SCheckoutNew n)
  | None =>
  match between "select dolt_commit('-am', '" "') as c" s with
  | Some msg => Some (SCommit msg)
  | None =>
  match between ("set @@" +:+ db +:+ "_head = '") "'" s with
  | Some c => Some (SSetHead c)
  | None => None
  end end end end end.

(** What each statement does. *)
Definition exec (q : stmt) (d : state) : option exn * state :=
  match q with
  | SActiveBranch =>
      (None, with_rows [ {[ "br" := PyStr (active d) ]} ] d)
  | SBranchExists n =>
      (None, with_rows (if bool_decide (n ∈ branches d)
                        then [ {[ "name" := PyStr n ]} ] else []) d)
  | SCheckoutNew n =>
      if bool_decide (n ∈ branches d)
      then (Some (OperationalError "branch already exists"), with_rows [] d)
      else (None, with_active n d)
  | SCheckout n =>
      if bool_decide (n ∈ branches d)
      then (None, with_active n d)
      else (Some (OperationalError "branch not found"), with_rows [] d)
  | SStatus =>
      (None, with_rows ((λ t, {[ "table_name" := PyStr t ]}) <$> changed d) d)
  | SCommit msg =>
      match changed d with
      | [] => (Some (OperationalError "nothing to commit"), with_rows [] d)
      | _ :: _ => (None, with_commit msg (hash d (length (commits d))) d)
      end
  | SSetHead c =>
      (None, with_session (connected d) [] (Some c) d)
  end.

Global Instance client : Client state := {|
  connect p d :=
    if reachable d && bool_decide (cp_database p = database d)
    then (None, with_session true [] None d)
    else (Some (OperationalError "can't connect to the server"), d);
  execute sql d :=
    if connected d
    then match parse (database d) sql with
         | Some q => exec q d
         | None => (Some (ClientError "syntax error"), with_rows [] d)
         end
    else (Some (ClientError "not connected"), d);
  fetchone d :=
    match rows d with
    | [] => (None, d)
    | r :: rs => (Some r, with_rows rs d)
    end;
  commit d :=
    if connected d then (None, d) else (Some (ClientError "not connected"), d);
  cursor_close d := with_rows [] d;
  close d := with_session false [] None d;
|}.

(** The server after a session that checked out [b]. *)
Definition checked_out (b : string) (d : state) : state :=
  State (reachable d) (database d) b ({[ b ]} ∪ branches d) (changed d)
        (commits d) (hash d) false [] None.

(** The server after a session that committed the pending changes. *)
Definition committed (message : string) (d : state) : state :=
  State (reachable d) (database d) (active d) (branches d) []
        ((active d, message, hash d (length (commits d))) :: commits d)
        (hash d) false [] None.

(** A server that answers, with no session open. *)
Definition idle (d : state) : Prop :=
  reachable d = true ∧ connected d = false ∧ rows d = [] ∧ head_var d = None.

End Dolt.

(** ** A scripted client

    A client that reads its answers off a list, one per call: a stand-in
    for a server, used to exercise answers the model above never gives
    (an empty result set, a row without the expected column). *)

Module Script.

Inductive reply :=
| Status (e : option exn)      (* to [connect], [execute] or [commit] *)
| Fetched (r : option row).    (* to [fetchone] *)

Definition next_status (w : list reply) : option exn * list reply :=
  match w with
  | Status e :: w' => (e, w')
  | _ => (Some (ClientError "unexpected call"), w)
  end.

Definition next_row (w : list reply) : option row * list reply :=
  match w with
  | Fetched r :: w' => (r, w')
  | _ => (None, w)
  end.

Definition client : Client (list reply) := {|
  connect _ := next_status;
  execute _ := next_status;
  fetchone := next_row;
  commit := next_status;
  cursor_close w := w;
  close w := w;
|}.

End Script.

(** ** A concrete run

    One hooks object, one server and one set of run parameters, on which
    the statements below are exercised. *)

Module Demo.

Definition repr : DictRepr := λ _, "{...}".

Definition hooks : KedroDolt := KedroDolt_default "demo".

(** A server on [master] with nothing to commit. *)
Definition db : Dolt.state :=
  Dolt.State true "demo" "master" {[ "master" ]} [] [] (λ _, "c0ffee")
             false [] None.

(** The same server, out of reach. *)
Definition db_down : Dolt.state :=
  Dolt.State false "demo" "master" {[ "master" ]} [] [] (λ _, "c0ffee")
             false [] None.

(** [kedro run --params branch:feature-x] *)
Definition extra_params : gmap string pyval :=
  {[ "branch" := PyStr "feature-x" ]}.

Definition run_params : gmap string pyval :=
  {[ "run_id" := PyStr "2021-03-01T12.00.00.000Z";
     "extra_params" := PyDict extra_params ]}.

(** [kedro run] *)
Definition plain_run_params : gmap string pyval :=
  {[ "run_id" := PyStr "2021-03-01T12.00.00.000Z";
     "extra_params" := PyDict ∅ ]}.

Definition message : string :=
  "Update from kedro run: 2021-03-01T12.00.00.000Z".

(** The machine as [before_pipeline_run run_params] and a pipeline that
    wrote the table [orders] leave it. *)
Definition switched : machine Dolt.state :=
  Machine (set_original_branch (PyStr "master")
             (set_branch (PyStr "feature-x") hooks))
          (Dolt.pipeline_writes ["orders"] (Dolt.checked_out "feature-x" db)).

End Demo.

(** ** Runs off the beaten path

    Inputs on which the hooks meet what the concrete run above does not:
    a run id with a quote in it, answers without rows, parameters that are
    not a dict. *)

Module Edge.

(** A run id that breaks out of the quotes of the commit statement. *)
Definition quoted_run_params : gmap string pyval :=
  {[ "run_id" := PyStr "it's"; "extra_params" := PyDict ∅ ]}.

(** A server that answers the first query with an empty result set. *)
Definition no_row : list Script.reply :=
  [Script.Status None; Script.Status None; Script.Fetched None].

Definition status_row : gmap string pyval :=
  {[ "table_name" := PyStr "orders" ]}.

(** A server with pending changes whose [dolt_commit] answers no row. *)
Definition no_reference : list Script.reply :=
  [Script.Status None; Script.Status None; Script.Fetched (Some status_row);
   Script.Status None; Script.Fetched None].

Definition none_extra_params : gmap string pyval :=
  {[ "extra_params" := PyNone ]}.

Definition text_extra_params : gmap string pyval :=
  {[ "extra_params" := PyStr "fast" ]}.

Definition branch_text_extra_params : gmap string pyval :=
  {[ "extra_params" := PyStr "branch:dev" ]}.

(** A server that drops the connection during the first query and answers
    every call after it; the branch asked for next is new to it. *)
Definition query_lost : list Script.reply :=
  [Script.Status None;
   Script.Status (Some (OperationalError "Lost connection to MySQL server during query"));
   Script.Status None;
   Script.Status None;
   Script.Fetched None;
   Script.Status None;
   Script.Status None].

End Edge.

(** * Reasoning about runs *)

Section Rules.
Context {W : Type} `{!Client W} `{!DictRepr}.

Lemma run_ret {A} (a : A) (m : machine W) Q : Q (Ok a) m [] → run (mret a) m Q.
Proof. done. Qed.

Lemma run_lift {A} (r : result A) (m : machine W) Q : Q r m [] → run (lift r) m Q.
Proof. by destruct r. Qed.

Lemma run_bind {A B} (c : M W A) (k : A → M W B) (m : machine W) Q :
  run c m (λ r m' t,
    match r with
    | Ok a => run (k a) m' (λ r' m'' t', Q r' m'' (t ++ t'))
    | Raise e => Q (Raise e) m' t
    end) →
  run (c ≫= k) m Q.
Proof.
  unfold run, mbind, M_bind, bind. cbn. by destruct (res (c m)).
Qed.

Lemma run_finally {A} (c : M W A) cleanup (m : machine W) Q :
  run c m (λ r m' t, run cleanup m' (λ _ m'' t', Q r m'' (t ++ t'))) →
  run (finally c cleanup) m Q.
Proof. done. Qed.

Lemma run_log (f : M W pyval) (m : machine W) Q :
  run f m (λ r m' t,
    match r with
    | Raise (OperationalError e) => Q (Ok PyNone) m' (t ++ [EvWarning e])
    | _ => Q r m' t
    end) →
  run (log_pymysql_error f) m Q.
Proof.
  unfold run, log_pymysql_error. cbn.
  destruct (f m) as [[a|[]] m' t]; done.
Qed.

Lemma run_get_self (m : machine W) Q : Q (Ok (self m)) m [] → run get_self m Q.
Proof. done. Qed.

Lemma run_modify_self f (m : machine W) Q :
  Q (Ok tt) (Machine (f (self m)) (server m)) [] → run (modify_self f) m Q.
Proof. done. Qed.

Lemma run_call f ev (m : machine W) Q :
  (∀ r w, f (server m) = (r, w) →
     Q (match r with Some e => Raise e | None => Ok tt end)
       (Machine (self m) w) [ev r]) →
  run (call f ev) m Q.
Proof.
  intros HQ. unfold run, call. destruct (f (server m)) as [r w] eqn:E.
  cbn. by apply HQ.
Qed.

Lemma run_call_total f ev (m : machine W) Q :
  Q (Ok tt) (Machine (self m) (f (server m))) [ev] → run (call_total f ev) m Q.
Proof. done. Qed.

Lemma run_fetchone (m : machine W) Q :
  (∀ r w, fetchone (server m) = (r, w) →
     Q (Ok (of_fetch r)) (Machine (self m) w) [EvFetchone r]) →
  run do_fetchone m Q.
Proof.
  intros HQ. unfold run, do_fetchone. destruct (fetchone (server m)) as [r w] eqn:E.
  cbn. by apply HQ.
Qed.

(** Calls whose answer is known. *)
Lemma run_call_eq f ev (m : machine W) r w Q :
  f (server m) = (r, w) →
  Q (match r with Some e => Raise e | None => Ok tt end)
    (Machine (self m) w) [ev r] →
  run (call f ev) m Q.
Proof. intros E HQ. apply run_call. intros r' w'. rewrite E. by intros [= <- <-]. Qed.

Lemma run_fetchone_eq (m : machine W) r w Q :
  fetchone (server m) = (r, w) →
  Q (Ok (of_fetch r)) (Machine (self m) w) [EvFetchone r] →
  run do_fetchone m Q.
Proof. intros E HQ. apply run_fetchone. intros r' w'. rewrite E. by intros [= <- <-]. Qed.
(** Two ways of reading [run]. *)
Lemma run_elim {A} (c : M W A) (m : machine W) Q :
  run c m Q → Q (res (c m)) (final (c m)) (trace (c m)).
Proof. done. Qed.

Lemma run_outcome {A} (c : M W A) (m : machine W) r m' t Q :
  c m = Outcome r m' t → Q r m' t → run c m Q.
Proof. unfold run. by intros ->. Qed.

Lemma outcome_eta {A} (o : outcome W A) :
  o = Outcome (res o) (final o) (trace o).
Proof. by destruct o. Qed.

End Rules.

(** One step of symbolic execution. *)
Ltac run_step :=
  lazymatch goal with
  | |- run (mbind _ _) _ _ => apply run_bind
  | |- run (mret _) _ _ => apply run_ret
  | |- run (lift _) _ _ => apply run_lift
  | |- run (finally _ _) _ _ => apply run_finally
  | |- run (log_pymysql_error _) _ _ => apply run_log
  | |- run get_self _ _ => apply run_get_self
  | |- run (modify_self _) _ _ => apply run_modify_self
  | |- run (do_connect _) _ _ => apply run_call; intros [?|] ? ?
  | |- run (do_execute _) _ _ => apply run_call; intros [?|] ? ?
  | |- run do_commit _ _ => apply run_call; intros [?|] ? ?
  | |- run do_cursor_close _ _ => apply run_call_total
  | |- run do_close _ _ => apply run_call_total
  | |- run do_fetchone _ _ => apply run_fetchone; intros [?|] ? ?
  | |- run connection _ _ => unfold connection
  | |- run (with_connection _) _ _ => unfold with_connection
  | |- run (with_cursor _) _ _ => unfold with_cursor
  | |- match ?r with _ => _ end =>
      lazymatch type of r with result _ => destruct r eqn:? end
  end;
  cbn [app self server is_none of_fetch].

Ltac run_all := repeat run_step.

Ltac getitem_inv E :=
  unfold py_getitem, dict_getitem in E; repeat case_match; simplify_eq.

(** A step whose outcome is known. *)
Tactic Notation "run_known" tactic(tac) :=
  eapply run_outcome; [tac|]; cbn [app self server is_none of_fetch].

(** * The hooks against any client *)

Section Properties.
Context {W : Type} `{!Client W} `{!DictRepr}.

Lemma clean_app t1 t2 : clean (t1 ++ t2) = clean t1 && clean t2.
Proof. apply forallb_app. Qed.

(** *** The decorated operations never touch the hooks object *)

Lemma commit_self msg (m : machine W) : self (final (_commit msg m)) = self m.
Proof.
  apply (run_elim (_commit msg) m (λ _ m' _, self m' = self m)).
  unfold _commit, _commit__wrapped. run_all; try done; by case_match.
Qed.

Lemma active_branch_wrapped_self (m : machine W) :
  self (final (_active_branch__wrapped m)) = self m.
Proof.
  apply (run_elim _active_branch__wrapped m (λ _ m' _, self m' = self m)).
  unfold _active_branch__wrapped. run_all; done.
Qed.

Lemma active_branch_self (m : machine W) : self (final (_active_branch m)) = self m.
Proof.
  apply (run_elim _active_branch m (λ _ m' _, self m' = self m)).
  unfold _active_branch. apply run_log. unfold run.
  pose proof (active_branch_wrapped_self m).
  by destruct (res _) as [|[]].
Qed.

Lemma checkout_branch_self b (m : machine W) :
  self (final (_checkout_branch b m)) = self m.
Proof.
  apply (run_elim (_checkout_branch b) m (λ _ m' _, self m' = self m)).
  unfold _checkout_branch, _checkout_branch__wrapped.
  run_all; try done; by case_match.
Qed.

Lemma checkout_branch_clean b (m : machine W) :
  let o := _checkout_branch b m in
  clean (trace o) = true →
  ∃ found,
    trace o = [EvConnect (params (self m)) None; EvExecute (sql_branch_exists (py_str b)) None; EvFetchone found;
               EvExecute (match found with None => sql_checkout_new (py_str b) | Some _ => sql_checkout (py_str b) end) None;
               EvCursorClose; EvCommit None; EvClose]
    ∧ res o = Ok PyNone.
Proof.
  apply (run_elim (_checkout_branch b) m (λ r m' t, clean t = true → ∃ found, t = _ ∧ r = _)).
  unfold _checkout_branch, _checkout_branch__wrapped.
  run_all; try (by case_match); intros _;
  lazymatch goal with |- ∃ _, (_ :: _ :: EvFetchone ?r :: _) = _ ∧ _ => by exists r end.
Qed.

(** Whatever the client answers, [_checkout_branch] issues at most one
    checkout statement, and none before the existence query is answered. *)
Lemma checkout_branch_at_most_once b (m : machine W) :
  let o := _checkout_branch b m in
  match fetched (trace o) with
  | [] => List.filter is_checkout_statement (statements (trace o)) = []
  | [Some _] =>
      List.filter is_checkout_statement (statements (trace o)) =
        [sql_checkout (py_str b)]
  | [None] =>
      List.filter is_checkout_statement (statements (trace o)) =
        [sql_checkout_new (py_str b)]
  | _ => False
  end.
Proof.
  refine (run_elim (_checkout_branch b) m (λ _ _ t,
    match fetched t with
    | [] => List.filter is_checkout_statement (statements t) = []
    | [Some _] => List.filter is_checkout_statement (statements t) = [_]
    | [None] => List.filter is_checkout_statement (statements t) = [_]
    | _ => False
    end) _).
  unfold _checkout_branch, _checkout_branch__wrapped.
  run_all;
    try lazymatch goal with |- match ?e with _ => _ end => is_var e; destruct e end;
    reflexivity.
Qed.

Lemma commit_clean msg (m : machine W) :
  let o := _commit msg m in
  clean (trace o) = true →
  ∃ status,
    match status with
    | None =>
        trace o = [EvConnect (params (self m)) None; EvExecute sql_status None;
                   EvFetchone None; EvCursorClose; EvCommit None; EvClose]
        ∧ res o = Ok PyNone
    | Some st => ∃ answer,
        trace o = [EvConnect (params (self m)) None; EvExecute sql_status None;
                   EvFetchone (Some st); EvExecute (sql_commit msg) None;
                   EvFetchone answer] ++
                  match py_getitem (of_fetch answer) "c" with
                  | Ok c => [EvExecute (sql_set_head (_database (self m)) (py_str c)) None;
                             EvCursorClose; EvCommit None; EvClose]
                  | Raise _ => [EvCursorClose; EvClose]
                  end
        ∧ res o = py_getitem (of_fetch answer) "c"
    end.
Proof.
  apply (run_elim (_commit msg) m (λ r m' t, clean t = true → ∃ status, match status with None => t = _ ∧ r = _ | Some st => ∃ answer, t = _ ∧ r = _ end)).
  unfold _commit, _commit__wrapped.
  run_all; try (by case_match).
  all: try match goal with
       | E : py_getitem _ _ = Raise ?e |- _ =>
           destruct e; try (by exfalso; getitem_inv E)
       end.
  all: lazymatch goal with
       | |- clean ?t = true → _ =>
           intros _;
           lazymatch t with
           | [_; _; EvFetchone None; _; _; _] => by exists None
           | _ :: _ :: EvFetchone (Some ?st) :: _ :: EvFetchone ?a :: _ =>
               exists (Some st), a; cbn [of_fetch];
               match goal with E : py_getitem _ _ = _ |- _ => by rewrite E end
           end
       end.
Qed.

(** *** The lookups in [run_params] *)

Lemma commit_message_eq rp (m : machine W) :
  _commit_message rp m =
  match rp !! "run_id" with
  | Some v => Outcome (Ok ("Update from kedro run: " +:+ py_str v)) m []
  | None => Outcome (Raise (KeyError "run_id")) m []
  end.
Proof.
  unfold _commit_message, mbind, M_bind, bind, dict_getitem.
  by destruct (rp !! "run_id").
Qed.

Lemma branch_param_eq rp ep (m : machine W) :
  rp !! "extra_params" = Some (PyDict ep) →
  branch_param rp m =
  match ep !! "branch" with
  | Some v => Outcome (Ok v) m []
  | None => Outcome (Raise (KeyError "branch")) m []
  end.
Proof.
  intros Hep. unfold branch_param, mbind, M_bind, bind, dict_getitem.
  rewrite Hep. cbn. unfold dict_getitem. by destruct (ep !! "branch").
Qed.

Lemma run_eq {A} (c : M W A) (m : machine W) o :
  run c m (λ r m' t, Outcome r m' t = o) → c m = o.
Proof. unfold run. intros <-. apply outcome_eta. Qed.

Lemma branch_requested_eq rp ep (m : machine W) :
  rp !! "extra_params" = Some (PyDict ep) →
  branch_requested rp m =
  Outcome (Ok (match ep !! "branch" with
               | Some v => negb (is_none v)
               | None => false
               end)) m [].
Proof.
  intros Hep. apply run_eq. unfold branch_requested, dict_getitem. rewrite Hep.
  do 4 run_step. cbn [py_contains].
  destruct (ep !! "branch") as [v|] eqn:Hb.
  - rewrite bool_decide_true by eauto. run_step.
    run_known (by rewrite (branch_param_eq rp ep), Hb).
    by run_step.
  - rewrite bool_decide_false by (by intros [? ?]). by run_step.
Qed.

(** *** The two hooks in terms of the decorated operations *)

Lemma before_pipeline_run_noop rp ep (m : machine W) :
  rp !! "extra_params" = Some (PyDict ep) →
  ep !! "branch" = None ∨ ep !! "branch" = Some PyNone →
  before_pipeline_run rp m = Outcome (Ok PyNone) m [].
Proof.
  intros Hep Hb. apply run_eq. unfold before_pipeline_run. run_step.
  run_known (by apply branch_requested_eq).
  destruct Hb as [-> | ->]; cbn [is_none negb]; by run_step.
Qed.

Lemma before_pipeline_run_switch rp ep b (m : machine W) :
  rp !! "extra_params" = Some (PyDict ep) →
  ep !! "branch" = Some b →
  is_none b = false →
  before_pipeline_run rp m =
  let oa := _active_branch (Machine (set_branch b (self m)) (server m)) in
  match res oa with
  | Raise e => Outcome (Raise e) (final oa) (trace oa)
  | Ok original =>
      let ok := _checkout_branch b
        (Machine (set_original_branch original (set_branch b (self m)))
                 (server (final oa))) in
      Outcome (match res ok with Ok _ => Ok PyNone | Raise e => Raise e end)
              (final ok) (trace oa ++ trace ok)
  end.
Proof.
  intros Hep Hb Hnone. cbv zeta.
  pose proof (active_branch_self (Machine (set_branch b (self m)) (server m))) as Hself.
  destruct (_active_branch _) as [ra [s1 w1] t1] eqn:Ea.
  cbn [res final trace self server] in *. subst s1.
  apply run_eq. unfold before_pipeline_run. run_step.
  run_known (by apply branch_requested_eq).
  rewrite Hb, Hnone. cbn [negb]. run_step.
  run_known (by rewrite (branch_param_eq rp ep), Hb).
  do 3 run_step. run_known (exact Ea).
  destruct ra as [original|e]; [|done].
  do 5 run_step. cbn [set_original_branch set_branch _branch].
  run_known (apply outcome_eta).
  destruct (res (_checkout_branch _ _)); [run_step|]; by rewrite ?app_nil_r.
Qed.

Lemma after_pipeline_run_eq rp (m : machine W) :
  after_pipeline_run rp m =
  match rp !! "run_id" with
  | None => Outcome (Raise (KeyError "run_id")) m []
  | Some v =>
      let oc := _commit ("Update from kedro run: " +:+ py_str v) m in
      match res oc with
      | Raise e => Outcome (Raise e) (final oc) (trace oc)
      | Ok commit =>
          if is_none (_original_branch (self m))
          then Outcome (Ok commit) (final oc) (trace oc)
          else
            let ok := _checkout_branch (_original_branch (self m)) (final oc) in
            Outcome (match res ok with Ok _ => Ok commit | Raise e => Raise e end)
                    (final ok) (trace oc ++ trace ok)
      end
  end.
Proof.
  pose proof (commit_message_eq rp m) as Hmsg.
  destruct (rp !! "run_id") as [v|].
  2: { apply run_eq. unfold after_pipeline_run. run_step. by run_known (exact Hmsg). }
  cbv zeta.
  pose proof (commit_self ("Update from kedro run: " +:+ py_str v) m) as Hself.
  destruct (_commit _ _) as [rc [s1 w1] t1] eqn:Ec.
  cbn [res final trace self server] in *. subst s1.
  apply run_eq. unfold after_pipeline_run. run_step. run_known (exact Hmsg).
  run_step. run_known (exact Ec).
  destruct rc as [commit|e]; [|done].
  do 3 run_step.
  destruct (is_none _).
  - do 2 run_step. by rewrite !app_nil_r.
  - run_known (apply outcome_eta).
    destruct (res (_checkout_branch _ _)); [run_step|]; by rewrite ?app_nil_r.
Qed.

(** *** Operational errors *)

Ltac swallow_leaf :=
  try match goal with
      | E : py_getitem _ _ = Raise ?e |- _ =>
          destruct e; try (by exfalso; getitem_inv E)
      end;
  try case_match;
  cbn;
  first [ by intros ?%elem_of_nil
        | intros ?%list_elem_of_singleton; by simplify_eq ].

Lemma active_branch_swallows (m : machine W) e : swallowed m e (_active_branch m).
Proof.
  refine (run_elim _active_branch m (λ r m' t,
    OperationalError e ∈ raised t →
    r = Ok PyNone ∧ warnings t = [e] ∧ last t = Some (EvWarning e) ∧
    self m' = self m) _).
  unfold _active_branch, _active_branch__wrapped. run_all; swallow_leaf.
Qed.

Lemma checkout_branch_swallows b (m : machine W) e :
  swallowed m e (_checkout_branch b m).
Proof.
  refine (run_elim (_checkout_branch b) m (λ r m' t,
    OperationalError e ∈ raised t →
    r = Ok PyNone ∧ warnings t = [e] ∧ last t = Some (EvWarning e) ∧
    self m' = self m) _).
  unfold _checkout_branch, _checkout_branch__wrapped. run_all; swallow_leaf.
Qed.

Lemma commit_swallows msg (m : machine W) e : swallowed m e (_commit msg m).
Proof.
  refine (run_elim (_commit msg) m (λ r m' t,
    OperationalError e ∈ raised t →
    r = Ok PyNone ∧ warnings t = [e] ∧ last t = Some (EvWarning e) ∧
    self m' = self m) _).
  unfold _commit, _commit__wrapped. run_all; swallow_leaf.
Qed.

(** *** The statements of [_commit] *)

Lemma commit_never_checks_out msg (m : machine W) :
  List.filter is_checkout_statement (statements (trace (_commit msg m))) = [].
Proof.
  apply (run_elim (_commit msg) m (λ _ _ t,
    List.filter is_checkout_statement (statements t) = [])).
  unfold _commit, _commit__wrapped. run_all; try case_match; reflexivity.
Qed.


Lemma getitem_fetch_ok (answer : option row) k v :
  py_getitem (of_fetch answer) k = Ok v →
  ∃ r, answer = Some r ∧ r !! k = Some v.
Proof.
  destruct answer as [r|]; [|done]. cbn. unfold dict_getitem.
  destruct (r !! k) eqn:E; [|done]. intros [= ->]. eauto.
Qed.

(** ** The hooks *)

(** [C3].  When [extra_params] has no ["branch"] key, or maps it to
    [None], [before_pipeline_run] does nothing: it returns [None], makes no
    call on the client (so no statement is issued) and leaves the machine,
    hence every field of the hooks object, as it was; an [_original_branch]
    that was [None] is still [None]. *)
Theorem before_run_without_branch_is_noop rp ep (m : machine W) :
  rp !! "extra_params" = Some (PyDict ep) →
  ep !! "branch" = None ∨ ep !! "branch" = Some PyNone →
  let o := before_pipeline_run rp m in
  o = Outcome (Ok PyNone) m [] ∧
  statements (trace o) = [] ∧
  self (final o) = self m ∧
  (_original_branch (self m) = PyNone → _original_branch (self (final o)) = PyNone).
Proof.
  intros Hep Hb o. subst o. rewrite (before_pipeline_run_noop rp ep) by done. done.
Qed.

(** [C4].  In a run of [_checkout_branch] in which no client call raises,
    the trace is: connect, the existence query on [dolt_branches], its
    [fetchone()], one [dolt_checkout] statement, cursor close, the
    connection's [commit()], close.  The checkout statement is the [-b] form
    when the query fetched no row and the plain form when it fetched one;
    it is the only checkout statement of the run. *)
Theorem checkout_branch_issues_exactly_one_checkout b (m : machine W) :
  let o := _checkout_branch b m in
  clean (trace o) = true →
  ∃ found,
    trace o =
      [EvConnect (params (self m)) None;
       EvExecute (sql_branch_exists (py_str b)) None;
       EvFetchone found;
       EvExecute (match found with
                  | None => sql_checkout_new (py_str b)
                  | Some _ => sql_checkout (py_str b)
                  end) None;
       EvCursorClose;
       EvCommit None;
       EvClose] ∧
    List.filter is_checkout_statement (statements (trace o)) =
      [match found with
       | None => sql_checkout_new (py_str b)
       | Some _ => sql_checkout (py_str b)
       end] ∧
    res o = Ok PyNone.
Proof.
  intros o Hclean. destruct (checkout_branch_clean b m Hclean) as (found & Ht & Hr).
  exists found. subst o. rewrite Ht, Hr. by destruct found.
Qed.

(** [C5].  In a run of [after_pipeline_run] that returns [v] and in which
    no client call raises, the first [fetchone()] is the answer to the
    [dolt_status] query.  When it is [None] the hook issues no
    [dolt_commit] statement and [v] is [None].  When it is a row the hook
    issues exactly one [dolt_commit] statement, carrying the message built
    from [run_id], and [v] is the ["c"] column of the row fetched next. *)
Theorem after_run_commits_only_pending_changes rp (m : machine W) v :
  let o := after_pipeline_run rp m in
  clean (trace o) = true →
  res o = Ok v →
  match head (fetched (trace o)) with
  | Some None =>
      v = PyNone ∧
      List.filter is_commit_statement (statements (trace o)) = []
  | Some (Some _) =>
      ∃ run_id answer,
        rp !! "run_id" = Some run_id ∧
        List.filter is_commit_statement (statements (trace o)) =
          [sql_commit ("Update from kedro run: " +:+ py_str run_id)] ∧
        fetched (trace o) !! 1 = Some (Some answer) ∧
        answer !! "c" = Some v
  | None => False
  end.
Proof.
  intros o. subst o. rewrite after_pipeline_run_eq.
  destruct (rp !! "run_id") as [run_id|]; [|done]. cbv zeta.
  pose proof (commit_clean ("Update from kedro run: " +:+ py_str run_id) m) as Hc.
  cbv zeta in Hc.
  destruct (_commit _ m) as [[commit|e] mc tc]; cbn [res final trace] in *; [|done].
  destruct (is_none (_original_branch (self m))); cbn [res final trace].
  - intros Hclean [= ->]. destruct (Hc Hclean) as [[st|] Hst].
    + destruct Hst as (answer & -> & Hget). symmetry in Hget.
      destruct (getitem_fetch_ok _ _ _ Hget) as (r & -> & Hr).
      cbn [of_fetch] in *. rewrite Hget. exists run_id, r. done.
    + by destruct Hst as [-> [= ->]].
  - pose proof (checkout_branch_clean (_original_branch (self m)) mc) as Hk.
    cbv zeta in Hk.
    destruct (_checkout_branch _ mc) as [rk mk tk]; cbn [res final trace] in *.
    rewrite clean_app. intros [Hclean Hclean']%andb_true_iff Hres.
    destruct (Hk Hclean') as (found & -> & ->). injection Hres as ->.
    destruct (Hc Hclean) as [[st|] Hst].
    + destruct Hst as (answer & -> & Hget). symmetry in Hget.
      destruct (getitem_fetch_ok _ _ _ Hget) as (r & -> & Hr).
      cbn [of_fetch] in *. rewrite Hget. exists run_id, r. by destruct found.
    + destruct Hst as [-> [= ->]]. by destruct found.
Qed.

(** [C6].  For [run_params] with a [run_id], [_commit_message] returns
    ["Update from kedro run: "] followed by [str(run_id)] (the run id itself
    when it is a string), and [after_pipeline_run] is [_commit] applied to
    exactly that message, followed by the restore step. *)
Theorem commit_message_names_the_run rp v (m : machine W) :
  rp !! "run_id" = Some v →
  let message := "Update from kedro run: " +:+ py_str v in
  _commit_message rp m = Outcome (Ok message) m [] ∧
  after_pipeline_run rp m =
    (commit ← _commit message;
     s ← get_self;
     (if is_none (_original_branch s) then mret PyNone
      else _checkout_branch (_original_branch s));;
     mret commit) m.
Proof.
  intros Hid message. pose proof (commit_message_eq rp m) as Hmsg.
  rewrite Hid in Hmsg. split; [done|].
  unfold after_pipeline_run. unfold mbind at 1, M_bind at 1, bind at 1.
  rewrite Hmsg. cbn [res final trace app]. apply eq_sym, outcome_eta.
Qed.

(** [C7].  Let [o] be a run of [_active_branch], [_checkout_branch] or
    [_commit].  If a client call of the run raised an [OperationalError],
    the operation returns [None] instead of raising, it logged one warning,
    the [repr()] of that error, as the last thing it did, and no field of
    the hooks object changed. *)
Theorem operational_errors_are_logged_and_swallowed (m : machine W) msg b e (o : outcome W pyval) :
  o = _active_branch m ∨ o = _checkout_branch b m ∨ o = _commit msg m →
  OperationalError e ∈ raised (trace o) →
  res o = Ok PyNone ∧
  warnings (trace o) = [e] ∧
  last (trace o) = Some (EvWarning e) ∧
  self (final o) = self m.
Proof.
  intros [-> | [-> | ->]].
  - apply active_branch_swallows.
  - apply checkout_branch_swallows.
  - apply commit_swallows.
Qed.

(** [C8].  In a run of [_commit] that returns [c], in which no client call
    raises and the status query fetched a row: [c] is the ["c"] column of
    the row fetched after the [dolt_commit] statement, the next statement
    sets [@@<database>_head] to [c], and the connection's [commit()] comes
    after it. *)
Theorem commit_records_head_then_commits_transaction msg (m : machine W) st c :
  let o := _commit msg m in
  clean (trace o) = true →
  head (fetched (trace o)) = Some (Some st) →
  res o = Ok c →
  ∃ answer,
    answer !! "c" = Some c ∧
    trace o =
      [EvConnect (params (self m)) None;
       EvExecute sql_status None;
       EvFetchone (Some st);
       EvExecute (sql_commit msg) None;
       EvFetchone (Some answer);
       EvExecute (sql_set_head (_database (self m)) (py_str c)) None;
       EvCursorClose;
       EvCommit None;
       EvClose].
Proof.
  intros o Hclean Hst Hres. subst o.
  destruct (commit_clean msg m Hclean) as [[st'|] H'].
  - destruct H' as (answer & Ht & Hget). rewrite Hres in Hget. symmetry in Hget.
    destruct (getitem_fetch_ok _ _ _ Hget) as (r & -> & Hr).
    rewrite Ht in Hst |- *. cbn [of_fetch] in *. rewrite Hget.
    injection Hst as ->. by exists r.
  - destruct H' as [Ht _]. by rewrite Ht in Hst.
Qed.

(** [C9].  Without an ["extra_params"] key [before_pipeline_run] raises
    [KeyError], and without a ["run_id"] key [after_pipeline_run] does; in
    both cases the exception reaches the caller before any call on the
    client. *)
Theorem missing_run_params_keys_raise_key_error rp (m : machine W) :
  (rp !! "extra_params" = None →
   before_pipeline_run rp m = Outcome (Raise (KeyError "extra_params")) m []) ∧
  (rp !! "run_id" = None →
   after_pipeline_run rp m = Outcome (Raise (KeyError "run_id")) m []).
Proof.
  split; intros Hk.
  - apply run_eq. unfold before_pipeline_run, branch_requested, dict_getitem.
    rewrite Hk. run_all. done.
  - by rewrite after_pipeline_run_eq, Hk.
Qed.

(** *** What a failed query and a checkout leave in the trace *)

(** A trace in which the client raised nothing is clean. *)
Lemma raised_nil_clean t : raised t = [] → clean t = true.
Proof.
  induction t as [|ev t IH]; [done|].
  unfold raised, clean in *. cbn [omap list_omap forallb].
  destruct (failure ev); [done|]. exact IH.
Qed.

(** Whatever the client answers, [_checkout_branch] starts by connecting
    with the settings of the hooks object. *)
Lemma checkout_branch_connects_first b (m : machine W) :
  ∃ r rest, trace (_checkout_branch b m) = EvConnect (params (self m)) r :: rest.
Proof.
  refine (run_elim (_checkout_branch b) m (λ _ _ t,
    ∃ r rest, t = EvConnect (params (self m)) r :: rest) _).
  unfold _checkout_branch, _checkout_branch__wrapped.
  run_all;
    try lazymatch goal with |- match ?e with _ => _ end => is_var e; destruct e end;
    by eexists _, _.
Qed.

(** [_active_branch] has two client calls that can raise, [connect] and
    [execute]: a run of its body that raises an [OperationalError] stopped
    at one of them, closing what it had opened. *)
Lemma active_branch_failed (m : machine W) e :
  res (_active_branch__wrapped m) = Raise (OperationalError e) →
  trace (_active_branch__wrapped m) =
    [EvConnect (params (self m)) (Some (OperationalError e))] ∨
  trace (_active_branch__wrapped m) =
    [EvConnect (params (self m)) None;
     EvExecute sql_active_branch (Some (OperationalError e));
     EvCursorClose;
     EvClose].
Proof.
  refine (run_elim _active_branch__wrapped m (λ r _ t,
    r = Raise (OperationalError e) → t = [_] ∨ t = [_; _; _; _]) _).
  unfold _active_branch__wrapped.
  run_all; try done.
  all: try (intros [= ->]; by left).
  all: try (intros [= ->]; by right).
  unfold py_getitem, dict_getitem. by destruct (_ !! _).
Qed.

(** [C10].  [before_pipeline_run] with a branch parameter [b], when the
    body of [_active_branch] raises an [OperationalError]: the query stopped
    at [connect] or at [execute], the error is logged, [_original_branch] is
    [None] and [_branch] is already [b].  The run goes on with
    [_checkout_branch b]: the next call on the client is a new [connect],
    and when the failed query is the only call that raises, the hook
    returns after the existence query for [b], one checkout statement for
    [b] and the connection's [commit()].  Any later [after_pipeline_run] on
    that hooks object issues no [dolt_checkout] statement. *)
Theorem failed_branch_query_loses_original_branch rp ep b e (m : machine W) :
  rp !! "extra_params" = Some (PyDict ep) →
  ep !! "branch" = Some b →
  is_none b = false →
  let m1 := Machine (set_branch b (self m)) (server m) in
  res (_active_branch__wrapped m1) = Raise (OperationalError e) →
  let oq := _active_branch m1 in
  let m2 := Machine (set_original_branch PyNone (set_branch b (self m)))
                    (server (final oq)) in
  let o := before_pipeline_run rp m in
  let p := params (self m) in
  let checkout found :=
    match found with
    | None => sql_checkout_new (py_str b)
    | Some _ => sql_checkout (py_str b)
    end in
  res oq = Ok PyNone ∧
  (trace oq = [EvConnect p (Some (OperationalError e)); EvWarning e] ∨
   trace oq = [EvConnect p None;
               EvExecute sql_active_branch (Some (OperationalError e));
               EvCursorClose;
               EvClose;
               EvWarning e]) ∧
  last (trace oq) = Some (EvWarning e) ∧
  trace o = trace oq ++ trace (_checkout_branch b m2) ∧
  final o = final (_checkout_branch b m2) ∧
  (∃ r rest, trace o = trace oq ++ EvConnect p r :: rest) ∧
  (raised (trace o) = [OperationalError e] →
   ∃ found : option row,
     res o = Ok PyNone ∧
     trace o = trace oq ++
       [EvConnect p None;
        EvExecute (sql_branch_exists (py_str b)) None;
        EvFetchone found;
        EvExecute (checkout found) None;
        EvCursorClose;
        EvCommit None;
        EvClose] ∧
     List.filter is_checkout_statement (statements (trace o)) = [checkout found]) ∧
  _branch (self (final o)) = b ∧
  _original_branch (self (final o)) = PyNone ∧
  ∀ rp' w,
    let o' := after_pipeline_run rp' (Machine (self (final o)) w) in
    List.filter is_checkout_statement (statements (trace o')) = [].
Proof.
  intros Hep Hb Hnone m1 Hfail oq m2 o p checkout.
  assert (res oq = Ok PyNone ∧
          trace oq = trace (_active_branch__wrapped m1) ++ [EvWarning e])
    as [Hres Htq].
  { subst oq. unfold _active_branch, log_pymysql_error. by rewrite Hfail. }
  assert (trace oq = [EvConnect p (Some (OperationalError e)); EvWarning e] ∨
          trace oq = [EvConnect p None;
                      EvExecute sql_active_branch (Some (OperationalError e));
                      EvCursorClose; EvClose; EvWarning e]) as Hshape.
  { rewrite Htq. destruct (active_branch_failed m1 e Hfail) as [-> | ->];
      [by left | by right]. }
  assert (o = Outcome (match res (_checkout_branch b m2) with
                       | Ok _ => Ok PyNone | Raise e => Raise e end)
                      (final (_checkout_branch b m2))
                      (trace oq ++ trace (_checkout_branch b m2))) as Ho.
  { subst o. rewrite (before_pipeline_run_switch rp ep b) by done.
    cbv zeta. fold m1. fold oq. by rewrite Hres. }
  assert (self (final o) = self m2) as Hself.
  { rewrite Ho. cbn [final]. apply checkout_branch_self. }
  split_and!; try done; try by rewrite Ho.
  - rewrite Htq. by rewrite last_snoc.
  - rewrite Ho. cbn [trace].
    destruct (checkout_branch_connects_first b m2) as (r & rest & ->).
    by exists r, rest.
  - rewrite Ho. cbn [res trace]. intros Hraised.
    assert (clean (trace (_checkout_branch b m2)) = true) as Hclean.
    { apply raised_nil_clean. unfold raised in *. rewrite omap_app in Hraised.
      by destruct Hshape as [Hq | Hq]; rewrite Hq in Hraised;
        cbn [omap list_omap failure app] in Hraised; injection Hraised. }
    destruct (checkout_branch_clean b m2 Hclean) as (found & Ht & Hr).
    exists found. rewrite Ht, Hr. split_and!; try done.
    unfold statements. rewrite omap_app, List.filter_app.
    by destruct Hshape as [-> | ->]; destruct found.
  - by rewrite Hself.
  - by rewrite Hself.
  - intros rp' w o'. subst o'. rewrite after_pipeline_run_eq.
    destruct (rp' !! "run_id") as [v|]; [|done]. cbv zeta.
    rewrite Hself. cbn [self m2 set_original_branch _original_branch is_none].
    pose proof (commit_never_checks_out ("Update from kedro run: " +:+ py_str v)
                  (Machine (self m2) w)) as Hc.
    subst m2. cbn [self] in Hc.
    by destruct (res (_commit _ _)).
Qed.

(** [C1], as amended.  [after_pipeline_run] on a hooks object whose
    [_original_branch] is set assigns no field of it: whatever the client
    answers, [_original_branch] keeps its value and is not reset to [None].
    Whenever the commit step returns, the next call on the client is the
    [connect] of [_checkout_branch]; and in a run that returns and in which
    no client call raises, the commit step is followed by the existence
    query for [_original_branch], one checkout statement for it, the only
    one of the run, and the connection's [commit()]. *)
Theorem after_run_restores_original_branch_and_keeps_it rp (m : machine W) :
  is_none (_original_branch (self m)) = false →
  let o := after_pipeline_run rp m in
  let original := py_str (_original_branch (self m)) in
  let p := params (self m) in
  let checkout found :=
    match found with
    | None => sql_checkout_new original
    | Some _ => sql_checkout original
    end in
  self (final o) = self m ∧
  _original_branch (self (final o)) = _original_branch (self m) ∧
  is_none (_original_branch (self (final o))) = false ∧
  (∀ run_id c,
     rp !! "run_id" = Some run_id →
     let oc := _commit ("Update from kedro run: " +:+ py_str run_id) m in
     res oc = Ok c →
     ∃ r rest, trace o = trace oc ++ EvConnect p r :: rest) ∧
  (∀ v,
     clean (trace o) = true →
     res o = Ok v →
     ∃ run_id (found : option row),
       rp !! "run_id" = Some run_id ∧
       let oc := _commit ("Update from kedro run: " +:+ py_str run_id) m in
       res oc = Ok v ∧
       trace o = trace oc ++
         [EvConnect p None;
          EvExecute (sql_branch_exists original) None;
          EvFetchone found;
          EvExecute (checkout found) None;
          EvCursorClose;
          EvCommit None;
          EvClose] ∧
       List.filter is_checkout_statement (statements (trace o)) = [checkout found]).
Proof.
  intros Horig o original p checkout.
  assert (self (final o) = self m) as Hself.
  { subst o. rewrite after_pipeline_run_eq.
    destruct (rp !! "run_id") as [v|]; [|done]. cbv zeta.
    destruct (res (_commit _ _)); [|apply commit_self].
    rewrite Horig. cbn [final]. rewrite checkout_branch_self. apply commit_self. }
  split_and!; try done; try by rewrite Hself.
  - intros run_id c Hid oc Hc. subst o oc. rewrite after_pipeline_run_eq, Hid.
    cbv zeta. rewrite Hc, Horig. cbn [trace].
    destruct (checkout_branch_connects_first (_original_branch (self m))
                (final (_commit ("Update from kedro run: " +:+ py_str run_id) m)))
      as (r & rest & ->).
    subst p. rewrite commit_self. by exists r, rest.
  - intros v. subst o. rewrite after_pipeline_run_eq.
    destruct (rp !! "run_id") as [run_id|]; [|done]. cbv zeta.
    destruct (res (_commit _ _)) as [c|] eqn:Hc; [|done].
    rewrite Horig. cbn [res trace]. rewrite clean_app.
    intros [_ Hclean]%andb_true_iff Hres.
    destruct (checkout_branch_clean _ _ Hclean) as (found & Ht & Hr).
    rewrite Hr in Hres. injection Hres as ->.
    exists run_id, found. rewrite Ht, commit_self. split_and!; try done.
    unfold statements. rewrite omap_app, List.filter_app. fold (statements
      (trace (_commit ("Update from kedro run: " +:+ py_str run_id) m))).
    rewrite commit_never_checks_out. by destruct found.
Qed.

End Properties.

(** * The hooks against the model of the database *)

Section DoltProperties.
Context `{!DictRepr}.
Import Dolt.

Lemma strip_prefix_app p s : strip_prefix p (p +:+ s) = Some s.
Proof.
  induction p as [|a p IH]; [done|].
  simpl. by rewrite Ascii.eqb_refl.
Qed.

Lemma length_app_string (x y : string) :
  String.length (x +:+ y) = String.length x + String.length y.
Proof.
  induction x as [|c x IH]; [done|].
  change (String.length (String c x +:+ y)) with (S (String.length (x +:+ y))).
  by rewrite IH.
Qed.

Lemma strip_suffix_eq q s :
  strip_suffix q s =
  if String.eqb s q then Some EmptyString
  else match s with
       | EmptyString => None
       | String c s' => String c <$> strip_suffix q s'
       end.
Proof. by destruct s. Qed.

Lemma strip_suffix_app x q : strip_suffix q (x +:+ q) = Some x.
Proof.
  induction x as [|c x IH]; rewrite strip_suffix_eq.
  - change (EmptyString +:+ q) with q. by rewrite String.eqb_refl.
  - change (String c x +:+ q) with (String c (x +:+ q)).
    replace (String.eqb (String c (x +:+ q)) q) with false; [by rewrite IH|].
    symmetry. apply String.eqb_neq. intros E%(f_equal String.length).
    simpl in E. rewrite length_app_string in E. lia.
Qed.

Lemma parse_active_branch db : parse db sql_active_branch = Some SActiveBranch.
Proof. reflexivity. Qed.

Lemma parse_status db : parse db sql_status = Some SStatus.
Proof. reflexivity. Qed.

Lemma between_app pre post lit :
  sql_safe lit = true → between pre post (pre +:+ lit +:+ post) = Some lit.
Proof.
  intros Hsafe. unfold between. rewrite strip_prefix_app. cbn.
  rewrite strip_suffix_app. cbn. by rewrite Hsafe.
Qed.

Lemma parse_branch_exists db n :
  sql_safe n = true → parse db (sql_branch_exists n) = Some (SBranchExists n).
Proof.
  intros Hsafe. unfold parse, sql_branch_exists.
  change (String.eqb _ "select active_branch() as br") with false.
  change (String.eqb _ "select * from dolt_status") with false.
  cbv iota. by rewrite between_app.
Qed.


Lemma parse_checkout db n :
  sql_safe n = true → parse db (sql_checkout n) = Some (SCheckout n).
Proof.
  intros Hsafe. unfold parse, sql_checkout.
  change (String.eqb _ "select active_branch() as br") with false.
  change (String.eqb _ "select * from dolt_status") with false.
  change (between "select * from dolt_branches where name = '" _ _) with (@None string).
  cbv iota. by rewrite between_app.
Qed.

Lemma parse_checkout_new db n :
  sql_safe n = true → parse db (sql_checkout_new n) = Some (SCheckoutNew n).
Proof.
  intros Hsafe. unfold parse, sql_checkout_new.
  change (String.eqb _ "select active_branch() as br") with false.
  change (String.eqb _ "select * from dolt_status") with false.
  change (between "select * from dolt_branches where name = '" _ _) with (@None string).
  cbv iota.
  replace (between "select dolt_checkout('" "')" _) with (@None string).
  - by rewrite between_app.
  - unfold between.
    change (strip_prefix _ _) with (Some (("-b', '" +:+ n) +:+ "')")).
    cbn [mbind option_bind]. by rewrite strip_suffix_app.
Qed.

Lemma parse_commit db msg :
  sql_safe msg = true → parse db (sql_commit msg) = Some (SCommit msg).
Proof.
  intros Hsafe. unfold parse, sql_commit.
  change (String.eqb _ "select active_branch() as br") with false.
  change (String.eqb _ "select * from dolt_status") with false.
  change (between "select * from dolt_branches where name = '" _ _) with (@None string).
  change (between "select dolt_checkout('" _ _) with (@None string).
  change (between "select dolt_checkout('-b', '" _ _) with (@None string).
  cbv iota. by rewrite between_app.
Qed.

Lemma append_assoc_string (x y z : string) : (x +:+ y) +:+ z = x +:+ y +:+ z.
Proof.
  induction x as [|c x IH]; [done|].
  change ((String c x +:+ y) +:+ z) with (String c ((x +:+ y) +:+ z)).
  by rewrite IH.
Qed.

Lemma parse_set_head db c :
  sql_safe c = true → parse db (sql_set_head db c) = Some (SSetHead c).
Proof.
  intros Hsafe. unfold parse, sql_set_head.
  change (String.eqb _ "select active_branch() as br") with false.
  change (String.eqb _ "select * from dolt_status") with false.
  change (between "select * from dolt_branches where name = '" _ _) with (@None string).
  change (between "select dolt_checkout('" _ _) with (@None string).
  change (between "select dolt_checkout('-b', '" _ _) with (@None string).
  change (between "select dolt_commit('-am', '" _ _) with (@None string).
  cbv iota.
  replace ("set @@" +:+ db +:+ "_head = '" +:+ c +:+ "'")
    with (("set @@" +:+ db +:+ "_head = '") +:+ c +:+ "'").
  - by rewrite between_app.
  - by rewrite !append_assoc_string.
Qed.

Lemma dolt_connect p d :
  idle d → cp_database p = database d →
  connect p d = (None, with_session true [] None d).
Proof.
  intros (Hr & _) Hdb. cbn. rewrite Hr. by rewrite bool_decide_true.
Qed.

Lemma dolt_execute sql q d r w :
  connected d = true → parse (database d) sql = Some q →
  exec q d = (r, w) →
  execute sql d = (r, w).
Proof. intros Hc Hq <-. cbn. by rewrite Hc, Hq. Qed.

Ltac dolt_parse :=
  first [ apply parse_active_branch
        | apply parse_status
        | by apply parse_branch_exists
        | by apply parse_checkout
        | by apply parse_checkout_new
        | by apply parse_commit
        | apply parse_set_head; by auto ].

Ltac dolt_norm :=
  cbn [app self server of_fetch is_none py_str
       reachable database active branches changed commits hash connected
       rows head_var with_session with_rows with_active with_commit].

Ltac dolt_eval :=
  cbn [exec fetchone commit client fmap list_fmap]; dolt_norm;
  repeat match goal with
         | H : bool_decide _ = _ |- _ => rewrite H
         | H : changed _ = _ |- _ => rewrite H
         end;
  reflexivity.

Ltac dolt_step :=
  lazymatch goal with
  | |- run (do_connect _) _ _ =>
      eapply run_call_eq; [by apply dolt_connect|]
  | |- run (do_execute _) _ _ =>
      eapply run_call_eq;
      [dolt_norm;
       try match goal with H : _database _ = database _ |- _ => rewrite H end;
       eapply dolt_execute; [done|dolt_parse|dolt_eval]|]
  | |- run do_commit _ _ => eapply run_call_eq; [dolt_eval|]
  | |- run do_fetchone _ _ => eapply run_fetchone_eq; [dolt_eval|]
  | |- context [py_getitem (PyDict {[ ?k := _ ]}) ?k] =>
      cbn [py_getitem]; unfold dict_getitem; rewrite lookup_singleton_eq
  | _ => run_step
  end;
  dolt_norm.

Ltac dolt_closed Hidle :=
  do 2 f_equal;
  match goal with d : state |- _ =>
    destruct d, Hidle as (_ & ? & ? & ?); cbn in *; by subst
  end.

Lemma dolt_active_branch s d :
  idle d → _database s = database d →
  _active_branch (Machine s d) =
  Outcome (Ok (PyStr (active d))) (Machine s d)
    [EvConnect (params s) None;
     EvExecute sql_active_branch None;
     EvFetchone (Some {[ "br" := PyStr (active d) ]});
     EvCursorClose;
     EvClose].
Proof.
  intros Hidle Hdb. apply run_eq.
  unfold _active_branch, _active_branch__wrapped.
  repeat dolt_step. dolt_closed Hidle.
Qed.

Lemma dolt_checkout_branch b s d :
  sql_safe (py_str b) = true →
  idle d → _database s = database d →
  _checkout_branch b (Machine s d) =
  Outcome (Ok PyNone) (Machine s (checked_out (py_str b) d))
    [EvConnect (params s) None;
     EvExecute (sql_branch_exists (py_str b)) None;
     EvFetchone (if bool_decide (py_str b ∈ branches d)
                 then Some {[ "name" := PyStr (py_str b) ]} else None);
     EvExecute (if bool_decide (py_str b ∈ branches d)
                then sql_checkout (py_str b)
                else sql_checkout_new (py_str b)) None;
     EvCursorClose;
     EvCommit None;
     EvClose].
Proof.
  intros Hsafe Hidle Hdb. apply run_eq.
  unfold _checkout_branch, _checkout_branch__wrapped.
  destruct (bool_decide (py_str b ∈ branches d)) eqn:Hin;
    repeat dolt_step; dolt_closed Hidle.
Qed.

Lemma dolt_commit msg s d :
  sql_safe msg = true →
  (∀ n, sql_safe (hash d n) = true) →
  idle d → _database s = database d →
  _commit msg (Machine s d) =
  match changed d with
  | [] =>
      Outcome (Ok PyNone) (Machine s d)
        [EvConnect (params s) None;
         EvExecute sql_status None;
         EvFetchone None;
         EvCursorClose;
         EvCommit None;
         EvClose]
  | t :: _ =>
      let ref := hash d (length (commits d)) in
      Outcome (Ok (PyStr ref)) (Machine s (committed msg d))
        [EvConnect (params s) None;
         EvExecute sql_status None;
         EvFetchone (Some {[ "table_name" := PyStr t ]});
         EvExecute (sql_commit msg) None;
         EvFetchone (Some {[ "c" := PyStr ref ]});
         EvExecute (sql_set_head (database d) ref) None;
         EvCursorClose;
         EvCommit None;
         EvClose]
  end.
Proof.
  intros Hsafe Hhash Hidle Hdb. apply run_eq.
  unfold _commit, _commit__wrapped.
  destruct (changed d) as [|t ts] eqn:Hch.
  - repeat dolt_step. dolt_closed Hidle.
  - repeat dolt_step. rewrite Hdb. dolt_closed Hidle.
Qed.


(** [C2].  [before_pipeline_run] with a branch parameter [b], against a
    server that answers: the hook first asks for the active branch, then
    runs the existence query and one checkout statement, the plain form
    when the branch exists and the [-b] form when it does not.  Afterwards
    [_original_branch] is the branch that was active, [_branch] is [b], and
    the server's active branch is [b], which is now one of its branches. *)
Theorem before_run_switches_to_requested_branch rp ep b (s : KedroDolt) (d : Dolt.state) :
  rp !! "extra_params" = Some (PyDict ep) →
  ep !! "branch" = Some b →
  is_none b = false →
  Dolt.sql_safe (py_str b) = true →
  Dolt.idle d →
  _database s = Dolt.database d →
  let o := before_pipeline_run rp (Machine s d) in
  res o = Ok PyNone ∧
  statements (trace o) =
    [sql_active_branch;
     sql_branch_exists (py_str b);
     if bool_decide (py_str b ∈ Dolt.branches d)
     then sql_checkout (py_str b)
     else sql_checkout_new (py_str b)] ∧
  clean (trace o) = true ∧
  _original_branch (self (final o)) = PyStr (Dolt.active d) ∧
  _branch (self (final o)) = b ∧
  Dolt.active (server (final o)) = py_str b ∧
  py_str b ∈ Dolt.branches (server (final o)).
Proof.
  intros Hep Hb Hnone Hsafe Hidle Hdb o. subst o.
  rewrite (before_pipeline_run_switch rp ep b) by done. cbv zeta.
  cbn [self server]. rewrite dolt_active_branch by done. cbn [res final trace server].
  rewrite dolt_checkout_branch by done. cbn [res final trace self server].
  split_and!; try done. cbn. set_solver.
Qed.


Lemma committed_idle msg d : idle d → idle (committed msg d).
Proof. by intros (? & _). Qed.

Lemma sql_safe_message run_id :
  sql_safe ("Update from kedro run: " +:+ run_id) = sql_safe run_id.
Proof. reflexivity. Qed.

(** A whole cycle against the model: the requested branch is checked out,
    the pipeline writes, the changes are committed on the requested branch
    and the branch that was active before the run is active again. *)
Lemma run_cycle_restores_active_branch rp ep b run_id s d tables :
  rp !! "extra_params" = Some (PyDict ep) →
  ep !! "branch" = Some b →
  is_none b = false →
  rp !! "run_id" = Some run_id →
  sql_safe (py_str b) = true →
  sql_safe (py_str run_id) = true →
  sql_safe (active d) = true →
  (∀ n, sql_safe (hash d n) = true) →
  idle d →
  _database s = database d →
  let o1 := before_pipeline_run rp (Machine s d) in
  let o2 := after_pipeline_run rp
              (Machine (self (final o1))
                       (pipeline_writes tables (server (final o1)))) in
  res o1 = Ok PyNone ∧
  active (server (final o1)) = py_str b ∧
  active (server (final o2)) = active d ∧
  _original_branch (self (final o2)) = PyStr (active d) ∧
  res o2 = match tables ++ changed d with
           | [] => Ok PyNone
           | _ :: _ => Ok (PyStr (hash d (length (commits d))))
           end.
Proof.
  intros Hep Hb Hnone Hid Hsb Hsid Hsa Hhash Hidle Hdb o1 o2.
  assert (o1 = Outcome (Ok PyNone)
                 (Machine (set_original_branch (PyStr (active d)) (set_branch b s))
                          (checked_out (py_str b) d))
                 (trace o1)) as Ho1.
  { subst o1. rewrite (before_pipeline_run_switch rp ep b) by done. cbv zeta.
    cbn [self server]. rewrite dolt_active_branch by done.
    cbn [res final trace server]. by rewrite dolt_checkout_branch. }
  subst o2. rewrite Ho1. cbn [res final self server].
  rewrite after_pipeline_run_eq, Hid. cbv zeta.
  cbn [self set_original_branch _original_branch is_none].
  set (d1 := pipeline_writes tables (checked_out (py_str b) d)).
  assert (idle d1) as Hidle1 by (by destruct Hidle).
  rewrite dolt_commit; [|by rewrite sql_safe_message|done..].
  assert (∀ msg, active (checked_out (active d) (committed msg d1)) = active d)
    as Hactive by done.
  destruct (changed d1) as [|t ts] eqn:Hch; subst d1; cbn in Hch; rewrite Hch.
  - cbn [res final trace].
    rewrite dolt_checkout_branch; [|done..]. done.
  - cbv zeta. cbn [res final trace].
    rewrite dolt_checkout_branch;
      [|done|by apply committed_idle|done]. done.
Qed.

End DoltProperties.

(** * The statements on the concrete run *)

Section Witnesses.
Local Existing Instance Demo.repr.

(** [C1], as stated, fails: after a whole cycle the branch is restored but
    [_original_branch] still holds ["master"]. *)
Lemma original_branch_survives_after_run :
  let o1 := before_pipeline_run Demo.run_params (Machine Demo.hooks Demo.db) in
  let o2 := after_pipeline_run Demo.run_params
              (Machine (self (final o1))
                       (Dolt.pipeline_writes ["orders"] (server (final o1)))) in
  _original_branch (self (final o1)) = PyStr "master" ∧
  Dolt.active (server (final o1)) = "feature-x" ∧
  res o2 = Ok (PyStr "c0ffee") ∧
  Dolt.active (server (final o2)) = "master" ∧
  _original_branch (self (final o2)) = PyStr "master" ∧
  _original_branch (self (final o2)) ≠ PyNone.
Proof. vm_compute. by split_and!. Qed.

Lemma after_run_restores_original_branch_witness :
  let m := Demo.switched in
  let o := after_pipeline_run Demo.run_params m in
  let oc := _commit Demo.message m in
  is_none (_original_branch (self m)) = false ∧
  clean (trace o) = true ∧
  res o = Ok (PyStr "c0ffee") ∧
  Dolt.active (server m) = "feature-x" ∧
  Dolt.active (server (final o)) = "master" ∧
  (self (final o) = self m ∧
   _original_branch (self (final o)) = PyStr "master" ∧
   is_none (_original_branch (self (final o))) = false ∧
   ∃ found : option row,
     res oc = Ok (PyStr "c0ffee") ∧
     trace o = trace oc ++
       [EvConnect (params (self m)) None;
        EvExecute (sql_branch_exists "master") None;
        EvFetchone found;
        EvExecute (match found with
                   | None => sql_checkout_new "master"
                   | Some _ => sql_checkout "master"
                   end) None;
        EvCursorClose;
        EvCommit None;
        EvClose] ∧
     List.filter is_checkout_statement (statements (trace o)) =
       [match found with
        | None => sql_checkout_new "master"
        | Some _ => sql_checkout "master"
        end]).
Proof.
  intros m o oc.
  assert (is_none (_original_branch (self m)) = false) as H1 by reflexivity.
  assert (clean (trace o) = true) as H2 by (vm_compute; reflexivity).
  assert (res o = Ok (PyStr "c0ffee")) as H3 by (vm_compute; reflexivity).
  assert (Demo.run_params !! "run_id" = Some (PyStr "2021-03-01T12.00.00.000Z"))
    as H4 by (vm_compute; reflexivity).
  refine (conj H1 (conj H2 (conj H3 (conj eq_refl _)))).
  split; [vm_compute; reflexivity|].
  destruct (after_run_restores_original_branch_and_keeps_it Demo.run_params m H1)
    as (Hself & Horig & Hset & _ & Hrestore).
  destruct (Hrestore (PyStr "c0ffee") H2 H3)
    as (run_id & found & Hid & Hc & Ht & Hf).
  rewrite H4 in Hid. injection Hid as <-.
  refine (conj Hself (conj Horig (conj Hset _))).
  exists found. exact (conj Hc (conj Ht Hf)).
Defined.

Lemma before_run_switches_witness :
  Demo.run_params !! "extra_params" = Some (PyDict Demo.extra_params) ∧
  Demo.extra_params !! "branch" = Some (PyStr "feature-x") ∧
  is_none (PyStr "feature-x") = false ∧
  Dolt.sql_safe (py_str (PyStr "feature-x")) = true ∧
  Dolt.idle Demo.db ∧
  _database Demo.hooks = Dolt.database Demo.db ∧
  (let o := before_pipeline_run Demo.run_params (Machine Demo.hooks Demo.db) in
   res o = Ok PyNone ∧
   statements (trace o) =
     [sql_active_branch;
      sql_branch_exists "feature-x";
      if bool_decide ("feature-x" ∈ Dolt.branches Demo.db)
      then sql_checkout "feature-x"
      else sql_checkout_new "feature-x"] ∧
   clean (trace o) = true ∧
   _original_branch (self (final o)) = PyStr (Dolt.active Demo.db) ∧
   _branch (self (final o)) = PyStr "feature-x" ∧
   Dolt.active (server (final o)) = "feature-x" ∧
   "feature-x" ∈ Dolt.branches (server (final o))).
Proof.
  assert (Demo.run_params !! "extra_params" = Some (PyDict Demo.extra_params))
    as H1 by (vm_compute; reflexivity).
  assert (Demo.extra_params !! "branch" = Some (PyStr "feature-x")) as H2
    by (vm_compute; reflexivity).
  assert (Dolt.idle Demo.db) as H5 by (repeat split; reflexivity).
  split_and!; [exact H1|exact H2|reflexivity|reflexivity|exact H5|reflexivity|].
  exact (before_run_switches_to_requested_branch
           Demo.run_params Demo.extra_params (PyStr "feature-x")
           Demo.hooks Demo.db H1 H2 eq_refl eq_refl H5 eq_refl).
Defined.

Lemma before_run_without_branch_witness :
  Demo.plain_run_params !! "extra_params" = Some (PyDict ∅) ∧
  ((∅ : gmap string pyval) !! "branch" = None ∨
   (∅ : gmap string pyval) !! "branch" = Some PyNone) ∧
  (let m := Machine Demo.hooks Demo.db in
   let o := before_pipeline_run Demo.plain_run_params m in
   o = Outcome (Ok PyNone) m [] ∧
   statements (trace o) = [] ∧
   self (final o) = self m ∧
   (_original_branch (self m) = PyNone →
    _original_branch (self (final o)) = PyNone)).
Proof.
  assert (Demo.plain_run_params !! "extra_params" = Some (PyDict ∅)) as H1
    by (vm_compute; reflexivity).
  assert ((∅ : gmap string pyval) !! "branch" = None ∨
          (∅ : gmap string pyval) !! "branch" = Some PyNone) as H2
    by (left; reflexivity).
  split_and!; [exact H1|exact H2|].
  exact (before_run_without_branch_is_noop
           Demo.plain_run_params ∅ (Machine Demo.hooks Demo.db) H1 H2).
Defined.

Lemma checkout_branch_witness :
  clean (trace (_checkout_branch (PyStr "feature-x")
                  (Machine Demo.hooks Demo.db))) = true ∧
  (let m := Machine Demo.hooks Demo.db in
   let o := _checkout_branch (PyStr "feature-x") m in
   ∃ found,
     trace o =
       [EvConnect (params (self m)) None;
        EvExecute (sql_branch_exists "feature-x") None;
        EvFetchone found;
        EvExecute (match found with
                   | None => sql_checkout_new "feature-x"
                   | Some _ => sql_checkout "feature-x"
                   end) None;
        EvCursorClose;
        EvCommit None;
        EvClose] ∧
     List.filter is_checkout_statement (statements (trace o)) =
       [match found with
        | None => sql_checkout_new "feature-x"
        | Some _ => sql_checkout "feature-x"
        end] ∧
     res o = Ok PyNone).
Proof.
  assert (clean (trace (_checkout_branch (PyStr "feature-x")
                          (Machine Demo.hooks Demo.db))) = true) as H1
    by (vm_compute; reflexivity).
  split; [exact H1|].
  exact (checkout_branch_issues_exactly_one_checkout
           (PyStr "feature-x") (Machine Demo.hooks Demo.db) H1).
Defined.

Lemma after_run_commits_witness :
  clean (trace (after_pipeline_run Demo.run_params Demo.switched)) = true ∧
  res (after_pipeline_run Demo.run_params Demo.switched) = Ok (PyStr "c0ffee") ∧
  (let o := after_pipeline_run Demo.run_params Demo.switched in
   match head (fetched (trace o)) with
   | Some None =>
       PyStr "c0ffee" = PyNone ∧
       List.filter is_commit_statement (statements (trace o)) = []
   | Some (Some _) =>
       ∃ run_id answer,
         Demo.run_params !! "run_id" = Some run_id ∧
         List.filter is_commit_statement (statements (trace o)) =
           [sql_commit ("Update from kedro run: " +:+ py_str run_id)] ∧
         fetched (trace o) !! 1 = Some (Some answer) ∧
         answer !! "c" = Some (PyStr "c0ffee")
   | None => False
   end).
Proof.
  assert (clean (trace (after_pipeline_run Demo.run_params Demo.switched)) = true)
    as H1 by (vm_compute; reflexivity).
  assert (res (after_pipeline_run Demo.run_params Demo.switched)
          = Ok (PyStr "c0ffee")) as H2 by (vm_compute; reflexivity).
  split_and!; [exact H1|exact H2|].
  exact (after_run_commits_only_pending_changes
           Demo.run_params Demo.switched (PyStr "c0ffee") H1 H2).
Defined.

Lemma commit_message_witness :
  Demo.run_params !! "run_id" = Some (PyStr "2021-03-01T12.00.00.000Z") ∧
  (let m := Machine Demo.hooks Demo.db in
   let message := "Update from kedro run: " +:+ "2021-03-01T12.00.00.000Z" in
   _commit_message Demo.run_params m = Outcome (Ok message) m [] ∧
   after_pipeline_run Demo.run_params m =
     (commit ← _commit message;
      s ← get_self;
      (if is_none (_original_branch s) then mret PyNone
       else _checkout_branch (_original_branch s));;
      mret commit) m).
Proof.
  assert (Demo.run_params !! "run_id" = Some (PyStr "2021-03-01T12.00.00.000Z"))
    as H1 by (vm_compute; reflexivity).
  split; [exact H1|].
  exact (commit_message_names_the_run
           Demo.run_params (PyStr "2021-03-01T12.00.00.000Z")
           (Machine Demo.hooks Demo.db) H1).
Defined.

Lemma operational_error_witness :
  let m := Machine Demo.hooks Demo.db_down in
  let o := _active_branch m in
  (o = _active_branch m ∨
   o = _checkout_branch PyNone m ∨
   o = _commit Demo.message m) ∧
  OperationalError "can't connect to the server" ∈ raised (trace o) ∧
  (res o = Ok PyNone ∧
   warnings (trace o) = ["can't connect to the server"] ∧
   last (trace o) = Some (EvWarning "can't connect to the server") ∧
   self (final o) = self m).
Proof.
  intros m o.
  assert (o = _active_branch m ∨
          o = _checkout_branch PyNone m ∨
          o = _commit Demo.message m) as H1 by (left; reflexivity).
  assert (OperationalError "can't connect to the server" ∈ raised (trace o))
    as H2 by (vm_compute; apply list_elem_of_here).
  refine (conj H1 (conj H2 _)).
  exact (operational_errors_are_logged_and_swallowed
           m Demo.message PyNone "can't connect to the server" o H1 H2).
Defined.

Lemma commit_records_head_witness :
  let o := _commit Demo.message Demo.switched in
  let st : gmap string pyval := {[ "table_name" := PyStr "orders" ]} in
  clean (trace o) = true ∧
  head (fetched (trace o)) = Some (Some st) ∧
  res o = Ok (PyStr "c0ffee") ∧
  (∃ answer,
     answer !! "c" = Some (PyStr "c0ffee") ∧
     trace o =
       [EvConnect (params (self Demo.switched)) None;
        EvExecute sql_status None;
        EvFetchone (Some st);
        EvExecute (sql_commit Demo.message) None;
        EvFetchone (Some answer);
        EvExecute (sql_set_head (_database (self Demo.switched))
                     (py_str (PyStr "c0ffee"))) None;
        EvCursorClose;
        EvCommit None;
        EvClose]).
Proof.
  intros o st.
  assert (clean (trace o) = true) as H1 by (vm_compute; reflexivity).
  assert (head (fetched (trace o)) = Some (Some st)) as H2
    by (vm_compute; reflexivity).
  assert (res o = Ok (PyStr "c0ffee")) as H3 by (vm_compute; reflexivity).
  split_and!; [exact H1|exact H2|exact H3|].
  exact (commit_records_head_then_commits_transaction
           Demo.message Demo.switched st (PyStr "c0ffee") H1 H2 H3).
Defined.

Lemma missing_keys_witness :
  let m := Machine Demo.hooks Demo.db in
  ((∅ : gmap string pyval) !! "extra_params" = None ∧
   before_pipeline_run ∅ m = Outcome (Raise (KeyError "extra_params")) m []) ∧
  ((∅ : gmap string pyval) !! "run_id" = None ∧
   after_pipeline_run ∅ m = Outcome (Raise (KeyError "run_id")) m []).
Proof.
  intros m.
  split; (split; [reflexivity|]).
  - exact (proj1 (missing_run_params_keys_raise_key_error ∅ m) eq_refl).
  - exact (proj2 (missing_run_params_keys_raise_key_error ∅ m) eq_refl).
Defined.

End Witnesses.

(** ** A run whose first query fails *)

Section ScriptedWitnesses.
Local Existing Instance Demo.repr.
Local Existing Instance Script.client.

Lemma failed_branch_query_witness :
  let m : machine (list Script.reply) := Machine Demo.hooks Edge.query_lost in
  let b := PyStr "feature-x" in
  let e := "Lost connection to MySQL server during query" in
  let m1 := Machine (set_branch b (self m)) (server m) in
  let o := before_pipeline_run Demo.run_params m in
  let p := params (self m) in
  Demo.run_params !! "extra_params" = Some (PyDict Demo.extra_params) ∧
  Demo.extra_params !! "branch" = Some b ∧
  is_none b = false ∧
  res (_active_branch__wrapped m1) = Raise (OperationalError e) ∧
  raised (trace o) = [OperationalError e] ∧
  trace o =
    [EvConnect p None;
     EvExecute sql_active_branch (Some (OperationalError e));
     EvCursorClose;
     EvClose;
     EvWarning e;
     EvConnect p None;
     EvExecute (sql_branch_exists "feature-x") None;
     EvFetchone None;
     EvExecute (sql_checkout_new "feature-x") None;
     EvCursorClose;
     EvCommit None;
     EvClose] ∧
  (res (_active_branch m1) = Ok PyNone ∧
   last (trace (_active_branch m1)) = Some (EvWarning e) ∧
   (∃ r rest, trace o = trace (_active_branch m1) ++ EvConnect p r :: rest) ∧
   (∃ found : option row,
      res o = Ok PyNone ∧
      trace o = trace (_active_branch m1) ++
        [EvConnect p None;
         EvExecute (sql_branch_exists "feature-x") None;
         EvFetchone found;
         EvExecute (match found with
                    | None => sql_checkout_new "feature-x"
                    | Some _ => sql_checkout "feature-x"
                    end) None;
         EvCursorClose;
         EvCommit None;
         EvClose] ∧
      List.filter is_checkout_statement (statements (trace o)) =
        [match found with
         | None => sql_checkout_new "feature-x"
         | Some _ => sql_checkout "feature-x"
         end]) ∧
   _branch (self (final o)) = b ∧
   _original_branch (self (final o)) = PyNone ∧
   ∀ rp' w,
     let o' := after_pipeline_run rp' (Machine (self (final o)) w) in
     List.filter is_checkout_statement (statements (trace o')) = []).
Proof.
  intros m b e m1 o p.
  assert (Demo.run_params !! "extra_params" = Some (PyDict Demo.extra_params))
    as H1 by (vm_compute; reflexivity).
  assert (Demo.extra_params !! "branch" = Some b) as H2
    by (vm_compute; reflexivity).
  assert (res (_active_branch__wrapped m1) = Raise (OperationalError e)) as H4
    by (vm_compute; reflexivity).
  assert (raised (trace o) = [OperationalError e]) as H5
    by (vm_compute; reflexivity).
  refine (conj H1 (conj H2 (conj eq_refl (conj H4 (conj H5 _))))).
  split; [vm_compute; reflexivity|].
  destruct (failed_branch_query_loses_original_branch
              Demo.run_params Demo.extra_params b e m H1 H2 eq_refl H4)
    as (Hres & _ & Hlast & _ & _ & Hnext & Hcheckout & Hb & Horig & Hafter).
  exact (conj Hres (conj Hlast (conj Hnext
           (conj (Hcheckout H5) (conj Hb (conj Horig Hafter)))))).
Defined.

End ScriptedWitnesses.

(** * More about the hooks against any client *)

Section MoreProperties.
Context {W : Type} `{!Client W} `{!DictRepr}.

Ltac leaf_exn :=
  try match goal with
      | E : py_getitem _ _ = Raise ?e |- _ =>
          destruct e; try (by exfalso; getitem_inv E)
      end;
  try lazymatch goal with
      | |- match ?e with _ => _ end => is_var e; destruct e
      end.

(** *** The connection discipline *)

Lemma session_after_app s t1 t2 :
  session_after s (t1 ++ t2) =
  match session_after s t1 with
  | Some s' => session_after s' t2
  | None => None
  end.
Proof.
  revert s. induction t1 as [|ev t1 IH]; intros s; [done|].
  cbn [app session_after]. destruct (session_step s ev); [apply IH|done].
Qed.

Lemma connects_app t1 t2 : connects (t1 ++ t2) = connects t1 ++ connects t2.
Proof. apply omap_app. Qed.

Lemma active_branch_disciplined (m : machine W) : disciplined (_active_branch m).
Proof.
  refine (run_elim _active_branch m (λ _ _ t,
    session_after NoConnection t = Some NoConnection ∧
    length (connects t) = 1) _).
  unfold _active_branch, _active_branch__wrapped. run_all; leaf_exn; done.
Qed.

Lemma checkout_branch_disciplined b (m : machine W) :
  disciplined (_checkout_branch b m).
Proof.
  refine (run_elim (_checkout_branch b) m (λ _ _ t,
    session_after NoConnection t = Some NoConnection ∧
    length (connects t) = 1) _).
  unfold _checkout_branch, _checkout_branch__wrapped. run_all; leaf_exn; done.
Qed.

Lemma commit_disciplined msg (m : machine W) : disciplined (_commit msg m).
Proof.
  refine (run_elim (_commit msg) m (λ _ _ t,
    session_after NoConnection t = Some NoConnection ∧
    length (connects t) = 1) _).
  unfold _commit, _commit__wrapped. run_all; leaf_exn; done.
Qed.


(** *** What else the client raises *)

Ltac propagate_leaf :=
  leaf_exn; cbn;
  first [ by intros ?%elem_of_nil
        | intros ?%list_elem_of_singleton ?; by simplify_eq ].

Lemma active_branch_propagates (m : machine W) e : propagated m e (_active_branch m).
Proof.
  refine (run_elim _active_branch m (λ r m' t,
    e ∈ raised t → is_operational e = false →
    r = Raise e ∧ warnings t = [] ∧ self m' = self m) _).
  unfold _active_branch, _active_branch__wrapped. run_all; propagate_leaf.
Qed.

Lemma checkout_branch_propagates b (m : machine W) e :
  propagated m e (_checkout_branch b m).
Proof.
  refine (run_elim (_checkout_branch b) m (λ r m' t,
    e ∈ raised t → is_operational e = false →
    r = Raise e ∧ warnings t = [] ∧ self m' = self m) _).
  unfold _checkout_branch, _checkout_branch__wrapped. run_all; propagate_leaf.
Qed.

Lemma commit_propagates msg (m : machine W) e : propagated m e (_commit msg m).
Proof.
  refine (run_elim (_commit msg) m (λ r m' t,
    e ∈ raised t → is_operational e = false →
    r = Raise e ∧ warnings t = [] ∧ self m' = self m) _).
  unfold _commit, _commit__wrapped. run_all; propagate_leaf.
Qed.

(** [X2].  Let [o] be a run of [_active_branch], [_checkout_branch] or
    [_commit].  If a client call of the run raised an exception that is not
    an [OperationalError], the operation raises that exception, logs
    nothing, leaves the hooks object unchanged, and has closed the
    connection it opened. *)
Theorem other_errors_escape_operations (m : machine W) msg b e
    (o : outcome W pyval) :
  o = _active_branch m ∨ o = _checkout_branch b m ∨ o = _commit msg m →
  e ∈ raised (trace o) →
  is_operational e = false →
  res o = Raise e ∧
  warnings (trace o) = [] ∧
  self (final o) = self m ∧
  session_after NoConnection (trace o) = Some NoConnection.
Proof.
  intros Ho Hin Hop.
  assert (propagated m e o ∧ disciplined o) as [Hp [Hd _]].
  { destruct Ho as [-> | [-> | ->]].
    - split; [apply active_branch_propagates|apply active_branch_disciplined].
    - split; [apply checkout_branch_propagates|apply checkout_branch_disciplined].
    - split; [apply commit_propagates|apply commit_disciplined]. }
  destruct (Hp Hin Hop) as (? & ? & ?). done.
Qed.

Lemma log_never_operational (f : M W pyval) (m : machine W) e :
  res (log_pymysql_error f m) ≠ Raise (OperationalError e).
Proof.
  unfold log_pymysql_error. destruct (res (f m)) as [|[]] eqn:E; cbn; congruence.
Qed.


(** *** The hooks on any [run_params] *)

Lemma raised_app t1 t2 : raised (t1 ++ t2) = raised t1 ++ raised t2.
Proof. apply omap_app. Qed.

Lemma statements_app t1 t2 : statements (t1 ++ t2) = statements t1 ++ statements t2.
Proof. apply omap_app. Qed.

Lemma fetched_app t1 t2 : fetched (t1 ++ t2) = fetched t1 ++ fetched t2.
Proof. apply omap_app. Qed.

(** [before_pipeline_run] either fails in its lookups, or does nothing, or
    finds a branch to switch to. *)
Ltac run_lookup :=
  repeat first [ progress cbn [py_contains py_getitem]
               | match goal with
                 | H : String.index _ _ _ = _ |- _ => progress rewrite H
                 | H : _ !! _ = _ |- _ => progress rewrite H
                 end
               | run_step ].

Lemma before_pipeline_run_cases rp (m : machine W) :
  (∃ e, is_operational e = false ∧
        before_pipeline_run rp m = Outcome (Raise e) m []) ∨
  before_pipeline_run rp m = Outcome (Ok PyNone) m [] ∨
  (∃ ep b, rp !! "extra_params" = Some (PyDict ep) ∧
           ep !! "branch" = Some b ∧ is_none b = false).
Proof.
  destruct (rp !! "extra_params") as [[|s|ep]|] eqn:Hep.
  - left. exists (TypeError "argument of type 'NoneType' is not iterable").
    split; [done|]. apply run_eq.
    unfold before_pipeline_run, branch_requested, dict_getitem.
    run_lookup. reflexivity.
  - destruct (String.index 0 "branch" s) eqn:Hin.
    + left. exists (TypeError "string indices must be integers").
      split; [done|]. apply run_eq.
      unfold before_pipeline_run, branch_requested, branch_param, dict_getitem.
      run_lookup. reflexivity.
    + right. left. apply run_eq.
      unfold before_pipeline_run, branch_requested, dict_getitem.
      run_lookup. reflexivity.
  - destruct (ep !! "branch") as [b|] eqn:Hb.
    + destruct (is_none b) eqn:Hnone.
      * right. left. apply (before_pipeline_run_noop rp ep); [done|].
        right. rewrite Hb. by destruct b.
      * right. right. by exists ep, b.
    + right. left. apply (before_pipeline_run_noop rp ep); [done|by left].
  - left. exists (KeyError "extra_params"). split; [done|]. apply run_eq.
    unfold before_pipeline_run, branch_requested, dict_getitem.
    run_lookup. reflexivity.
Qed.


Lemma disciplined_seq (o1 o2 : outcome W pyval) :
  disciplined o1 → disciplined o2 →
  session_after NoConnection (trace o1 ++ trace o2) = Some NoConnection ∧
  length (connects (trace o1 ++ trace o2)) ≤ 2.
Proof.
  intros [H1 L1] [H2 L2]. rewrite session_after_app, H1, connects_app, length_app.
  split; [done|lia].
Qed.

Lemma disciplined_one (o : outcome W pyval) :
  disciplined o →
  session_after NoConnection (trace o) = Some NoConnection ∧
  length (connects (trace o)) ≤ 2.
Proof. intros [H1 L1]. split; [done|lia]. Qed.

(** [X1].  Whatever [run_params] and the client's answers are, and however
    the hook ends, the calls of [before_pipeline_run] and of
    [after_pipeline_run] follow the connection discipline: statements and
    [fetchone()] only on the open cursor of an open connection, the cursor
    closed before [commit()] and [close()], every connection that was
    opened closed again, warnings logged with no connection open.  A hook
    calls [pymysql.connect] at most twice. *)
Theorem hooks_keep_connection_discipline rp (m : machine W) :
  disciplined_hook (before_pipeline_run rp m) ∧
  disciplined_hook (after_pipeline_run rp m).
Proof.
  unfold disciplined_hook. split.
  - destruct (before_pipeline_run_cases rp m)
      as [(e & _ & ->) | [-> | (ep & b & Hep & Hb & Hn)]];
      [cbn; split; [done|lia]..|].
    rewrite (before_pipeline_run_switch rp ep b) by done. cbv zeta.
    pose proof (active_branch_disciplined
                  (Machine (set_branch b (self m)) (server m))) as Ha.
    destruct (res (_active_branch _)) as [original|e];
      [|by apply disciplined_one].
    cbn [trace]. apply disciplined_seq; [done|apply checkout_branch_disciplined].
  - rewrite after_pipeline_run_eq.
    destruct (rp !! "run_id") as [v|]; [|cbn; split; [done|lia]]. cbv zeta.
    pose proof (commit_disciplined ("Update from kedro run: " +:+ py_str v) m) as Hc.
    destruct (res (_commit _ m)) as [c|e]; [|by apply disciplined_one].
    destruct (is_none _); [by apply disciplined_one|].
    cbn [trace]. apply disciplined_seq; [done|apply checkout_branch_disciplined].
Qed.

(** [X3].  An exception raised by a client call during a hook, other than
    an [OperationalError], is the exception the hook raises. *)
Theorem other_errors_escape_hooks rp (m : machine W) e (o : outcome W pyval) :
  o = before_pipeline_run rp m ∨ o = after_pipeline_run rp m →
  e ∈ raised (trace o) →
  is_operational e = false →
  res o = Raise e.
Proof.
  intros [-> | ->].
  - destruct (before_pipeline_run_cases rp m)
      as [(e' & _ & ->) | [-> | (ep & b & Hep & Hb & Hn)]];
      [by intros ?%elem_of_nil..|].
    rewrite (before_pipeline_run_switch rp ep b) by done. cbv zeta.
    pose proof (active_branch_propagates
                  (Machine (set_branch b (self m)) (server m)) e) as Ha.
    unfold propagated in Ha.
    destruct (_active_branch _) as [[original|e'] ma ta]; cbn [res final trace] in *.
    + pose proof (checkout_branch_propagates b
                    (Machine (set_original_branch original (set_branch b (self m)))
                             (server ma)) e) as Hk.
      unfold propagated in Hk.
      rewrite raised_app. intros [Hin|Hin]%elem_of_app Hop.
      * by destruct (Ha Hin Hop).
      * destruct (Hk Hin Hop) as [-> _]. done.
    + intros Hin Hop. by destruct (Ha Hin Hop).
  - rewrite after_pipeline_run_eq.
    destruct (rp !! "run_id") as [v|]; [|by intros ?%elem_of_nil]. cbv zeta.
    pose proof (commit_propagates ("Update from kedro run: " +:+ py_str v) m e) as Hc.
    unfold propagated in Hc.
    destruct (_commit _ m) as [[c|e'] mc tc]; cbn [res final trace] in *.
    + destruct (is_none _); cbn [res trace].
      * intros Hin Hop. by destruct (Hc Hin Hop).
      * pose proof (checkout_branch_propagates (_original_branch (self m)) mc e) as Hk.
        unfold propagated in Hk.
        rewrite raised_app. intros [Hin|Hin]%elem_of_app Hop.
        -- by destruct (Hc Hin Hop).
        -- destruct (Hk Hin Hop) as [-> _]. done.
    + intros Hin Hop. by destruct (Hc Hin Hop).
Qed.

Lemma active_branch_never_operational (m : machine W) e :
  res (_active_branch m) ≠ Raise (OperationalError e).
Proof. apply log_never_operational. Qed.

Lemma checkout_branch_never_operational b (m : machine W) e :
  res (_checkout_branch b m) ≠ Raise (OperationalError e).
Proof. apply log_never_operational. Qed.

Lemma commit_never_operational msg (m : machine W) e :
  res (_commit msg m) ≠ Raise (OperationalError e).
Proof. apply log_never_operational. Qed.

(** [X4].  Neither hook ever raises an [OperationalError], whatever
    [run_params] and the client's answers are. *)
Theorem hooks_never_raise_operational_error rp (m : machine W) e :
  res (before_pipeline_run rp m) ≠ Raise (OperationalError e) ∧
  res (after_pipeline_run rp m) ≠ Raise (OperationalError e).
Proof.
  split.
  - destruct (before_pipeline_run_cases rp m)
      as [(e' & He & ->) | [-> | (ep & b & Hep & Hb & Hn)]].
    + cbn. intros [= ->]. done.
    + done.
    + rewrite (before_pipeline_run_switch rp ep b) by done. cbv zeta.
      pose proof (active_branch_never_operational
                    (Machine (set_branch b (self m)) (server m)) e) as Ha.
      destruct (res (_active_branch _)) as [original|e']; [|done].
      cbn [res].
      match goal with |- context [res (_checkout_branch ?b' ?m')] =>
        pose proof (checkout_branch_never_operational b' m' e) as Hk;
        by destruct (res (_checkout_branch b' m'))
      end.
  - rewrite after_pipeline_run_eq.
    destruct (rp !! "run_id") as [v|]; [|done]. cbv zeta.
    pose proof (commit_never_operational
                  ("Update from kedro run: " +:+ py_str v) m e) as Hc.
    destruct (res (_commit _ m)) as [c|e']; [|done].
    destruct (is_none _); [done|]. cbn [res].
    match goal with |- context [res (_checkout_branch ?b' ?m')] =>
      pose proof (checkout_branch_never_operational b' m' e) as Hk;
      by destruct (res (_checkout_branch b' m'))
    end.
Qed.


(** *** The statements of a run *)

Ltac sublist_solve :=
  solve [ eauto 12 using sublist_nil, sublist_skip, sublist_cons ].

Lemma active_branch_statements (m : machine W) :
  statements (trace (_active_branch m)) `sublist_of` [sql_active_branch].
Proof.
  refine (run_elim _active_branch m (λ _ _ t,
    statements t `sublist_of` [sql_active_branch]) _).
  unfold _active_branch, _active_branch__wrapped.
  run_all; leaf_exn; cbn; sublist_solve.
Qed.

Lemma checkout_branch_statements b (m : machine W) :
  ∃ form,
    (form = sql_checkout (py_str b) ∨ form = sql_checkout_new (py_str b)) ∧
    statements (trace (_checkout_branch b m))
      `sublist_of` [sql_branch_exists (py_str b); form].
Proof.
  refine (run_elim (_checkout_branch b) m (λ _ _ t,
    ∃ form,
      (form = sql_checkout (py_str b) ∨ form = sql_checkout_new (py_str b)) ∧
      statements t `sublist_of` [sql_branch_exists (py_str b); form]) _).
  unfold _checkout_branch, _checkout_branch__wrapped.
  run_all; leaf_exn; cbn;
    first [ exists (sql_checkout (py_str b)); split; [by left|sublist_solve]
          | exists (sql_checkout_new (py_str b)); split; [by right|sublist_solve] ].
Qed.

Lemma commit_statements msg (m : machine W) :
  ∃ c,
    statements (trace (_commit msg m))
      `sublist_of` [sql_status; sql_commit msg;
                    sql_set_head (_database (self m)) (py_str c)].
Proof.
  refine (run_elim (_commit msg) m (λ _ _ t,
    ∃ c, statements t `sublist_of`
           [sql_status; sql_commit msg;
            sql_set_head (_database (self m)) (py_str c)]) _).
  unfold _commit, _commit__wrapped.
  run_all; leaf_exn; cbn;
    first [ match goal with E : py_getitem _ _ = Ok ?c |- _ => exists c end;
            sublist_solve
          | exists PyNone; sublist_solve ].
Qed.

(** [X6].  The statements of a hook, in order, are taken from a fixed list.
    [before_pipeline_run] issues nothing, or some of: the active-branch
    query, the existence query for the requested branch, one checkout of
    it.  [after_pipeline_run] issues nothing, or some of: the status query,
    the commit with the run's message, the [@@<database>_head] assignment
    and, only when [_original_branch] is set, the existence query for it
    and one checkout of it.  In particular [before_pipeline_run] never
    commits and [after_pipeline_run] checks out no other branch. *)
Theorem hooks_issue_only_their_statements rp (m : machine W) :
  (let o := before_pipeline_run rp m in
   statements (trace o) = [] ∨
   ∃ ep b form,
     rp !! "extra_params" = Some (PyDict ep) ∧
     ep !! "branch" = Some b ∧
     (form = sql_checkout (py_str b) ∨ form = sql_checkout_new (py_str b)) ∧
     statements (trace o)
       `sublist_of` [sql_active_branch; sql_branch_exists (py_str b); form]) ∧
  (let o := after_pipeline_run rp m in
   let original := _original_branch (self m) in
   statements (trace o) = [] ∨
   ∃ run_id c form,
     rp !! "run_id" = Some run_id ∧
     (form = sql_checkout (py_str original) ∨
      form = sql_checkout_new (py_str original)) ∧
     statements (trace o)
       `sublist_of`
         [sql_status;
          sql_commit ("Update from kedro run: " +:+ py_str run_id);
          sql_set_head (_database (self m)) (py_str c)] ++
         (if is_none original then []
          else [sql_branch_exists (py_str original); form])).
Proof.
  split.
  - cbv zeta.
    destruct (before_pipeline_run_cases rp m)
      as [(e & _ & ->) | [-> | (ep & b & Hep & Hb & Hn)]]; [by left..|].
    right. rewrite (before_pipeline_run_switch rp ep b) by done. cbv zeta.
    pose proof (active_branch_statements
                  (Machine (set_branch b (self m)) (server m))) as Ha.
    destruct (_active_branch _) as [[original|e] ma ta]; cbn [res final trace] in *.
    + destruct (checkout_branch_statements b
                  (Machine (set_original_branch original (set_branch b (self m)))
                           (server ma))) as (form & Hform & Hk).
      exists ep, b, form. split_and!; try done.
      rewrite statements_app.
      by apply (sublist_app _ [sql_active_branch] _ [_; _]).
    + exists ep, b, (sql_checkout (py_str b)). split_and!; [done..|by left|].
      by apply (sublist_inserts_r
                  [sql_branch_exists (py_str b); sql_checkout (py_str b)]) in Ha.
  - cbv zeta. rewrite after_pipeline_run_eq.
    destruct (rp !! "run_id") as [v|]; [|by left]. right. cbv zeta.
    destruct (commit_statements ("Update from kedro run: " +:+ py_str v) m)
      as (c & Hc).
    destruct (_commit _ m) as [[commit|e] mc tc]; cbn [res final trace] in *.
    + destruct (is_none (_original_branch (self m))) eqn:Hn.
      * exists v, c, (sql_checkout (py_str (_original_branch (self m)))).
        split_and!; [done|by left|]. cbn [trace]. by rewrite app_nil_r.
      * destruct (checkout_branch_statements (_original_branch (self m)) mc)
          as (form & Hform & Hk).
        exists v, c, form. split_and!; [done..|]. cbn [trace].
        rewrite statements_app. by apply (sublist_app _ [_; _; _] _ [_; _]).
    + exists v, c, (sql_checkout (py_str (_original_branch (self m)))).
      split_and!; [done|by left|]. cbn [trace]. by apply sublist_inserts_r.
Qed.

(** *** Answers without the expected row *)

Lemma active_branch_fetched (m : machine W) answer :
  let o := _active_branch m in
  head (fetched (trace o)) = Some answer →
  res o = py_getitem (of_fetch answer) "br" ∧
  trace o =
    [EvConnect (params (self m)) None;
     EvExecute sql_active_branch None;
     EvFetchone answer;
     EvCursorClose;
     EvClose].
Proof.
  refine (run_elim _active_branch m (λ r _ t,
    head (fetched t) = Some answer →
    r = py_getitem (of_fetch answer) "br" ∧ t = _) _).
  unfold _active_branch, _active_branch__wrapped.
  run_all; leaf_exn; try done; intros [= <-]; by cbn [of_fetch].
Qed.

(** [X7].  [before_pipeline_run] with a branch parameter [b], when the
    active-branch query is answered but [res["br"]] fails (no row, or a row
    without that column): the lookup error is not swallowed, the hook
    raises it after closing the connection, no checkout is attempted,
    [_branch] is already [b] and [_original_branch] is as before. *)
Theorem before_run_without_active_branch_row rp ep b (m : machine W) answer e :
  rp !! "extra_params" = Some (PyDict ep) →
  ep !! "branch" = Some b →
  is_none b = false →
  let m1 := Machine (set_branch b (self m)) (server m) in
  head (fetched (trace (_active_branch m1))) = Some answer →
  py_getitem (of_fetch answer) "br" = Raise e →
  let o := before_pipeline_run rp m in
  res o = Raise e ∧
  trace o =
    [EvConnect (params (self m)) None;
     EvExecute sql_active_branch None;
     EvFetchone answer;
     EvCursorClose;
     EvClose] ∧
  _branch (self (final o)) = b ∧
  _original_branch (self (final o)) = _original_branch (self m).
Proof.
  intros Hep Hb Hn m1 Hfetch Hget o. subst o.
  rewrite (before_pipeline_run_switch rp ep b) by done. cbv zeta. fold m1.
  destruct (active_branch_fetched m1 answer Hfetch) as [Hres Htrace].
  pose proof (active_branch_self m1) as Hself.
  rewrite Hres, Hget. cbn [res final trace]. by rewrite Htrace, Hself.
Qed.

(** [X8].  [_commit] with pending changes, when the [dolt_commit]
    statement succeeds but [fetchone()["c"]] fails: [_commit] raises the
    lookup error; the [dolt_commit] statement has been executed, but
    neither the [@@<database>_head] assignment nor the connection's
    [commit()] is, and the connection is closed. *)
Theorem commit_without_reference_row msg (m : machine W) st answer e :
  let o := _commit msg m in
  fetched (trace o) = [Some st; answer] →
  py_getitem (of_fetch answer) "c" = Raise e →
  res o = Raise e ∧
  trace o =
    [EvConnect (params (self m)) None;
     EvExecute sql_status None;
     EvFetchone (Some st);
     EvExecute (sql_commit msg) None;
     EvFetchone answer;
     EvCursorClose;
     EvClose].
Proof.
  refine (run_elim (_commit msg) m (λ r _ t,
    fetched t = [Some st; answer] →
    py_getitem (of_fetch answer) "c" = Raise e →
    r = Raise e ∧ t = _) _).
  unfold _commit, _commit__wrapped.
  run_all; leaf_exn; try done; intros [= <- <-]; cbn [of_fetch];
    intros Hget; split; congruence.
Qed.

(** [X9].  When the commit step raises, [after_pipeline_run] stops there:
    its outcome is that of [_commit], it raises the same exception, and it
    issues no checkout statement, even with [_original_branch] set. *)
Theorem after_run_skips_restore_when_commit_raises rp v (m : machine W) e :
  rp !! "run_id" = Some v →
  let oc := _commit ("Update from kedro run: " +:+ py_str v) m in
  res oc = Raise e →
  let o := after_pipeline_run rp m in
  o = oc ∧
  res o = Raise e ∧
  List.filter is_checkout_statement (statements (trace o)) = [] ∧
  self (final o) = self m.
Proof.
  intros Hid oc Hres o.
  assert (o = oc) as ->.
  { subst o. rewrite after_pipeline_run_eq, Hid. cbv zeta. fold oc.
    rewrite Hres. rewrite <- Hres. apply eq_sym, outcome_eta. }
  split_and!; try done.
  - apply commit_never_checks_out.
  - apply commit_self.
Qed.

(** [X10].  On a hooks object whose [_original_branch] is [None], as
    [__init__] leaves it, [after_pipeline_run] is exactly [_commit] on the
    run's message: same result, same machine, same calls. *)
Theorem after_run_without_original_branch_is_commit rp v (m : machine W) :
  rp !! "run_id" = Some v →
  _original_branch (self m) = PyNone →
  after_pipeline_run rp m = _commit ("Update from kedro run: " +:+ py_str v) m.
Proof.
  intros Hid Hnone. rewrite after_pipeline_run_eq, Hid, Hnone. cbv zeta.
  cbn [is_none].
  destruct (_commit _ m) as [[c|e] mc tc]; reflexivity.
Qed.

(** [X11].  [before_pipeline_run] when [extra_params] is not a dict.  With
    [None] the membership test raises [TypeError]; with a string the test
    is a substring test, so the hook does nothing when the string does not
    contain ["branch"], and raises [TypeError] on the subscript when it
    does.  No call is made on the client and the object is unchanged. *)
Theorem before_run_extra_params_not_a_mapping rp (m : machine W) :
  (rp !! "extra_params" = Some PyNone →
   ∃ msg, before_pipeline_run rp m = Outcome (Raise (TypeError msg)) m []) ∧
  (∀ s, rp !! "extra_params" = Some (PyStr s) →
        String.index 0 "branch" s = None →
        before_pipeline_run rp m = Outcome (Ok PyNone) m []) ∧
  (∀ s n, rp !! "extra_params" = Some (PyStr s) →
          String.index 0 "branch" s = Some n →
          ∃ msg, before_pipeline_run rp m = Outcome (Raise (TypeError msg)) m []).
Proof.
  split_and!.
  - intros Hep. eexists. apply run_eq.
    unfold before_pipeline_run, branch_requested, dict_getitem.
    run_lookup. reflexivity.
  - intros s Hep Hin. apply run_eq.
    unfold before_pipeline_run, branch_requested, dict_getitem.
    run_lookup. reflexivity.
  - intros s n Hep Hin. eexists. apply run_eq.
    unfold before_pipeline_run, branch_requested, branch_param, dict_getitem.
    run_lookup. reflexivity.
Qed.


(** *** A server that cannot be reached *)

Lemma active_branch_gave_up (m : machine W) : gave_up (_active_branch m).
Proof.
  refine (run_elim _active_branch m (λ r _ t,
    forallb refused (connects t) = true →
    r = Ok PyNone ∧ statements t = [] ∧ fetched t = [] ∧
    length (warnings t) = 1) _).
  unfold _active_branch, _active_branch__wrapped. run_all; leaf_exn; done.
Qed.

Lemma checkout_branch_gave_up b (m : machine W) : gave_up (_checkout_branch b m).
Proof.
  refine (run_elim (_checkout_branch b) m (λ r _ t,
    forallb refused (connects t) = true →
    r = Ok PyNone ∧ statements t = [] ∧ fetched t = [] ∧
    length (warnings t) = 1) _).
  unfold _checkout_branch, _checkout_branch__wrapped. run_all; leaf_exn; done.
Qed.

Lemma commit_gave_up msg (m : machine W) : gave_up (_commit msg m).
Proof.
  refine (run_elim (_commit msg) m (λ r _ t,
    forallb refused (connects t) = true →
    r = Ok PyNone ∧ statements t = [] ∧ fetched t = [] ∧
    length (warnings t) = 1) _).
  unfold _commit, _commit__wrapped. run_all; leaf_exn; done.
Qed.

Lemma warnings_app t1 t2 : warnings (t1 ++ t2) = warnings t1 ++ warnings t2.
Proof. apply omap_app. Qed.

(** [X12].  When every connection attempt of a hook is refused with an
    [OperationalError], the hook executes and fetches nothing, logs one
    warning per attempt, and either made no attempt at all or returns
    [None] as if it had succeeded. *)
Theorem hooks_give_up_when_server_refuses rp (m : machine W) (o : outcome W pyval) :
  o = before_pipeline_run rp m ∨ o = after_pipeline_run rp m →
  forallb refused (connects (trace o)) = true →
  statements (trace o) = [] ∧
  fetched (trace o) = [] ∧
  length (warnings (trace o)) = length (connects (trace o)) ∧
  (trace o = [] ∨ res o = Ok PyNone).
Proof.
  intros [-> | ->].
  - destruct (before_pipeline_run_cases rp m)
      as [(e & _ & ->) | [-> | (ep & b & Hep & Hb & Hn)]];
      [intros _; split_and!; try done; by left..|].
    rewrite (before_pipeline_run_switch rp ep b) by done. cbv zeta.
    pose proof (active_branch_gave_up
                  (Machine (set_branch b (self m)) (server m))) as Ha.
    pose proof (active_branch_disciplined
                  (Machine (set_branch b (self m)) (server m))) as [_ La].
    unfold gave_up in Ha.
    destruct (_active_branch _) as [ra ma ta]; cbn [res final trace] in *.
    destruct ra as [original|e].
    + cbn [trace res].
      match goal with |- context [_checkout_branch b ?m'] =>
        pose proof (checkout_branch_gave_up b m') as Hk;
        pose proof (checkout_branch_disciplined b m') as [_ Lk];
        unfold gave_up in Hk;
        destruct (_checkout_branch b m') as [rk mk tk]
      end.
      cbn [res final trace] in *.
      rewrite connects_app, forallb_app. intros [H1 H2]%andb_true_iff.
      destruct (Ha H1) as (_ & Sa & Fa & Wa). destruct (Hk H2) as (-> & Sk & Fk & Wk).
      rewrite statements_app, fetched_app, warnings_app, !length_app.
      rewrite Sa, Sk, Fa, Fk, Wa, Wk, La, Lk. split_and!; try done. by right.
    + intros H1. destruct (Ha H1) as (? & _). done.
  - rewrite after_pipeline_run_eq.
    destruct (rp !! "run_id") as [v|];
      [|intros _; split_and!; try done; by left]. cbv zeta.
    pose proof (commit_gave_up ("Update from kedro run: " +:+ py_str v) m) as Hc.
    pose proof (commit_disciplined ("Update from kedro run: " +:+ py_str v) m)
      as [_ Lc].
    unfold gave_up in Hc.
    destruct (_commit _ m) as [rc mc tc]; cbn [res final trace] in *.
    destruct rc as [c|e].
    + destruct (is_none (_original_branch (self m))); cbn [trace res].
      * intros H1. destruct (Hc H1) as ([= ->] & Sc & Fc & Wc).
        rewrite Sc, Fc, Wc, Lc. split_and!; try done. by right.
      * match goal with |- context [_checkout_branch ?b' mc] =>
          pose proof (checkout_branch_gave_up b' mc) as Hk;
          pose proof (checkout_branch_disciplined b' mc) as [_ Lk];
          unfold gave_up in Hk;
          destruct (_checkout_branch b' mc) as [rk mk tk]
        end.
        cbn [res final trace] in *.
        rewrite connects_app, forallb_app. intros [H1 H2]%andb_true_iff.
        destruct (Hc H1) as ([= ->] & Sc & Fc & Wc).
        destruct (Hk H2) as (-> & Sk & Fk & Wk).
        rewrite statements_app, fetched_app, warnings_app, !length_app.
        rewrite Sc, Sk, Fc, Fk, Wc, Wk, Lc, Lk. split_and!; try done. by right.
    + intros H1. destruct (Hc H1) as (? & _). done.
Qed.


(** *** The arguments of [pymysql.connect] *)

Lemma active_branch_connects_with (m : machine W) :
  connects_with (params (self m)) (trace (_active_branch m)).
Proof.
  refine (run_elim _active_branch m (λ _ _ t,
    connects_with (params (self m)) t) _).
  unfold _active_branch, _active_branch__wrapped.
  run_all; leaf_exn; by repeat constructor.
Qed.

Lemma checkout_branch_connects_with b (m : machine W) :
  connects_with (params (self m)) (trace (_checkout_branch b m)).
Proof.
  refine (run_elim (_checkout_branch b) m (λ _ _ t,
    connects_with (params (self m)) t) _).
  unfold _checkout_branch, _checkout_branch__wrapped.
  run_all; leaf_exn; by repeat constructor.
Qed.

Lemma commit_connects_with msg (m : machine W) :
  connects_with (params (self m)) (trace (_commit msg m)).
Proof.
  refine (run_elim (_commit msg) m (λ _ _ t,
    connects_with (params (self m)) t) _).
  unfold _commit, _commit__wrapped.
  run_all; leaf_exn; by repeat constructor.
Qed.

(** [X5].  The hooks never change the connection settings of the object
    ([after_pipeline_run] changes no field at all), and every
    [pymysql.connect] of a hook is given exactly the host, user, port,
    password and database the object was built with. *)
Theorem hooks_keep_connection_settings rp (m : machine W) :
  (let o := before_pipeline_run rp m in
   params (self (final o)) = params (self m) ∧
   connects_with (params (self m)) (trace o)) ∧
  (let o := after_pipeline_run rp m in
   self (final o) = self m ∧
   connects_with (params (self m)) (trace o)).
Proof.
  split; cbv zeta.
  - destruct (before_pipeline_run_cases rp m)
      as [(e' & He & ->) | [-> | (ep & b & Hep & Hb & Hn)]];
      [by split; [|constructor]..|].
    rewrite (before_pipeline_run_switch rp ep b) by done. cbv zeta.
    pose proof (active_branch_self (Machine (set_branch b (self m)) (server m))) as Ha.
    pose proof (active_branch_connects_with
                  (Machine (set_branch b (self m)) (server m))) as Pa.
    destruct (_active_branch _) as [[original|e'] ma ta]; cbn [res final trace self] in *.
    + rewrite checkout_branch_self. split; [done|].
      apply Forall_app. split; [done|].
      apply (checkout_branch_connects_with b
               (Machine (set_original_branch original (set_branch b (self m)))
                        (server ma))).
    + by rewrite Ha.
  - rewrite after_pipeline_run_eq.
    destruct (rp !! "run_id") as [v|]; [|by split; [|constructor]]. cbv zeta.
    pose proof (commit_self ("Update from kedro run: " +:+ py_str v) m) as Hc.
    pose proof (commit_connects_with ("Update from kedro run: " +:+ py_str v) m) as Pc.
    destruct (_commit _ m) as [[c|e'] mc tc]; cbn [res final trace] in *; [|done].
    destruct (is_none _); [done|]. cbn [final trace].
    rewrite checkout_branch_self. split; [done|].
    apply Forall_app. split; [done|].
    pose proof (checkout_branch_connects_with (_original_branch (self m)) mc) as Pk.
    by rewrite Hc in Pk.
Qed.

(** [X13].  Whatever the client answers, and however the run ends,
    [_checkout_branch] issues no checkout statement before the existence
    query has been fetched, and exactly one once it has: the plain form
    when a row was fetched, the [-b] form when none was. *)
Theorem checkout_form_follows_fetched_row b (m : machine W) :
  let o := _checkout_branch b m in
  match fetched (trace o) with
  | [] => List.filter is_checkout_statement (statements (trace o)) = []
  | [Some _] =>
      List.filter is_checkout_statement (statements (trace o)) =
        [sql_checkout (py_str b)]
  | [None] =>
      List.filter is_checkout_statement (statements (trace o)) =
        [sql_checkout_new (py_str b)]
  | _ => False
  end.
Proof. exact (checkout_branch_at_most_once b m). Qed.

End MoreProperties.

(** * More about the hooks against the model of the database *)

Section MoreDoltProperties.
Context `{!DictRepr}.
Import Dolt.

(** [X14].  The two checkout statements as text.  Each form determines the
    branch name it was built from, and the plain form of a name without
    quote or backslash is never a [-b] form.  Without that condition the
    forms meet: the plain form for the name [-b', 'x] is the [-b] form
    for [x]. *)
Theorem checkout_statement_forms :
  (∀ b1 b2, sql_checkout b1 = sql_checkout b2 → b1 = b2) ∧
  (∀ b1 b2, sql_checkout_new b1 = sql_checkout_new b2 → b1 = b2) ∧
  (∀ b1 b2, sql_safe b1 = true → sql_checkout b1 ≠ sql_checkout_new b2) ∧
  (∀ b, sql_checkout ("-b', '" +:+ b) = sql_checkout_new b).
Proof.
  split_and!.
  - intros b1 b2 E.
    apply (f_equal (strip_prefix "select dolt_checkout('")) in E.
    change (Some (b1 +:+ "')") = Some (b2 +:+ "')")) in E.
    injection E as E. apply (f_equal (strip_suffix "')")) in E.
    rewrite !strip_suffix_app in E. by injection E.
  - intros b1 b2 E.
    apply (f_equal (strip_prefix "select dolt_checkout('-b', '")) in E.
    change (Some (b1 +:+ "')") = Some (b2 +:+ "')")) in E.
    injection E as E. apply (f_equal (strip_suffix "')")) in E.
    rewrite !strip_suffix_app in E. by injection E.
  - intros b1 b2 Hsafe E.
    apply (f_equal (strip_prefix "select dolt_checkout('")) in E.
    change (Some (b1 +:+ "')") = Some (("-b', '" +:+ b2) +:+ "')")) in E.
    injection E as E. apply (f_equal (strip_suffix "')")) in E.
    rewrite !strip_suffix_app in E. injection E as ->. done.
  - reflexivity.
Qed.

(** [X15].  A whole run against the model of the database:
    [before_pipeline_run] with a branch parameter, a pipeline that writes
    [tables], then [after_pipeline_run].  The branch that was active before
    the run is active again and nothing is left uncommitted.  If there was
    anything to commit, one commit was added, on the requested branch and
    with the run's message, and its reference is what the hook returns;
    otherwise the log is unchanged and the hook returns [None]. *)
Theorem run_cycle_commits_on_requested_branch rp ep b run_id s d tables :
  rp !! "extra_params" = Some (PyDict ep) →
  ep !! "branch" = Some b →
  is_none b = false →
  rp !! "run_id" = Some run_id →
  sql_safe (py_str b) = true →
  sql_safe (py_str run_id) = true →
  sql_safe (active d) = true →
  (∀ n, sql_safe (hash d n) = true) →
  idle d →
  _database s = database d →
  let o1 := before_pipeline_run rp (Machine s d) in
  let o2 := after_pipeline_run rp
              (Machine (self (final o1))
                       (pipeline_writes tables (server (final o1)))) in
  let message := "Update from kedro run: " +:+ py_str run_id in
  let ref := hash d (length (commits d)) in
  active (server (final o2)) = active d ∧
  changed (server (final o2)) = [] ∧
  match tables ++ changed d with
  | [] =>
      res o2 = Ok PyNone ∧
      commits (server (final o2)) = commits d
  | _ :: _ =>
      res o2 = Ok (PyStr ref) ∧
      commits (server (final o2)) = (py_str b, message, ref) :: commits d
  end.
Proof.
  intros Hep Hb Hnone Hid Hsb Hsid Hsa Hhash Hidle Hdb o1 o2 message ref.
  assert (o1 = Outcome (Ok PyNone)
                 (Machine (set_original_branch (PyStr (active d)) (set_branch b s))
                          (checked_out (py_str b) d))
                 (trace o1)) as Ho1.
  { subst o1. rewrite (before_pipeline_run_switch rp ep b) by done. cbv zeta.
    cbn [self server]. rewrite dolt_active_branch by done.
    cbn [res final trace server]. by rewrite dolt_checkout_branch. }
  subst o2. rewrite Ho1. cbn [res final self server].
  rewrite after_pipeline_run_eq, Hid. cbv zeta.
  cbn [self set_original_branch _original_branch is_none].
  set (d1 := pipeline_writes tables (checked_out (py_str b) d)).
  assert (idle d1) as Hidle1 by (by destruct Hidle).
  rewrite dolt_commit; [|done..].
  destruct (changed d1) as [|t ts] eqn:Hch; subst d1; cbn in Hch; rewrite Hch.
  - cbn [res final trace].
    rewrite dolt_checkout_branch; [|done..]. done.
  - cbv zeta. cbn [res final trace].
    rewrite dolt_checkout_branch; [|done|by destruct Hidle|done]. done.
Qed.

End MoreDoltProperties.

(** * More statements on concrete runs *)

Section MoreWitnesses.
Local Existing Instance Demo.repr.
Local Existing Instance Script.client.

Lemma other_errors_escape_operations_witness :
  let m := Machine Demo.hooks Demo.db in
  let o := _checkout_branch (PyStr "it's") m in
  let e := ClientError "syntax error" in
  (o = _active_branch m ∨
   o = _checkout_branch (PyStr "it's") m ∨
   o = _commit Demo.message m) ∧
  e ∈ raised (trace o) ∧
  is_operational e = false ∧
  (res o = Raise e ∧
   warnings (trace o) = [] ∧
   self (final o) = self m ∧
   session_after NoConnection (trace o) = Some NoConnection).
Proof.
  intros m o e.
  assert (o = _active_branch m ∨
          o = _checkout_branch (PyStr "it's") m ∨
          o = _commit Demo.message m) as H1 by (right; left; reflexivity).
  assert (e ∈ raised (trace o)) as H2 by (vm_compute; apply list_elem_of_here).
  refine (conj H1 (conj H2 (conj eq_refl _))).
  exact (other_errors_escape_operations
           m Demo.message (PyStr "it's") e o H1 H2 eq_refl).
Defined.

Lemma other_errors_escape_hooks_witness :
  let o := after_pipeline_run Edge.quoted_run_params Demo.switched in
  let e := ClientError "syntax error" in
  (o = before_pipeline_run Edge.quoted_run_params Demo.switched ∨
   o = after_pipeline_run Edge.quoted_run_params Demo.switched) ∧
  e ∈ raised (trace o) ∧
  is_operational e = false ∧
  res o = Raise e.
Proof.
  intros o e.
  assert (o = before_pipeline_run Edge.quoted_run_params Demo.switched ∨
          o = after_pipeline_run Edge.quoted_run_params Demo.switched) as H1
    by (right; reflexivity).
  assert (e ∈ raised (trace o)) as H2 by (vm_compute; apply list_elem_of_here).
  refine (conj H1 (conj H2 (conj eq_refl _))).
  exact (other_errors_escape_hooks
           Edge.quoted_run_params Demo.switched e o H1 H2 eq_refl).
Defined.

Lemma before_run_without_active_branch_row_witness :
  let m : machine (list Script.reply) := Machine Demo.hooks Edge.no_row in
  let b := PyStr "feature-x" in
  let e := TypeError "'NoneType' object is not subscriptable" in
  Demo.run_params !! "extra_params" = Some (PyDict Demo.extra_params) ∧
  Demo.extra_params !! "branch" = Some b ∧
  is_none b = false ∧
  head (fetched (trace (_active_branch
                          (Machine (set_branch b (self m)) (server m)))))
    = Some None ∧
  py_getitem (of_fetch None) "br" = Raise e ∧
  (let o := before_pipeline_run Demo.run_params m in
   res o = Raise e ∧
   trace o =
     [EvConnect (params (self m)) None;
      EvExecute sql_active_branch None;
      EvFetchone None;
      EvCursorClose;
      EvClose] ∧
   _branch (self (final o)) = b ∧
   _original_branch (self (final o)) = _original_branch (self m)).
Proof.
  intros m b e.
  assert (Demo.run_params !! "extra_params" = Some (PyDict Demo.extra_params))
    as H1 by (vm_compute; reflexivity).
  assert (Demo.extra_params !! "branch" = Some b) as H2
    by (vm_compute; reflexivity).
  assert (head (fetched (trace (_active_branch
                                  (Machine (set_branch b (self m)) (server m)))))
          = Some None) as H4 by (vm_compute; reflexivity).
  refine (conj H1 (conj H2 (conj eq_refl (conj H4 (conj eq_refl _))))).
  exact (before_run_without_active_branch_row
           Demo.run_params Demo.extra_params b m None e H1 H2 eq_refl H4 eq_refl).
Defined.

Lemma commit_without_reference_row_witness :
  let m : machine (list Script.reply) := Machine Demo.hooks Edge.no_reference in
  let e := TypeError "'NoneType' object is not subscriptable" in
  let o := _commit Demo.message m in
  fetched (trace o) = [Some Edge.status_row; None] ∧
  py_getitem (of_fetch None) "c" = Raise e ∧
  (res o = Raise e ∧
   trace o =
     [EvConnect (params (self m)) None;
      EvExecute sql_status None;
      EvFetchone (Some Edge.status_row);
      EvExecute (sql_commit Demo.message) None;
      EvFetchone None;
      EvCursorClose;
      EvClose]).
Proof.
  intros m e o.
  assert (fetched (trace o) = [Some Edge.status_row; None]) as H1
    by (vm_compute; reflexivity).
  refine (conj H1 (conj eq_refl _)).
  exact (commit_without_reference_row
           Demo.message m Edge.status_row None e H1 eq_refl).
Defined.

Lemma after_run_skips_restore_witness :
  let v := PyStr "it's" in
  let e := ClientError "syntax error" in
  let oc := _commit ("Update from kedro run: " +:+ py_str v) Demo.switched in
  Edge.quoted_run_params !! "run_id" = Some v ∧
  res oc = Raise e ∧
  (let o := after_pipeline_run Edge.quoted_run_params Demo.switched in
   o = oc ∧
   res o = Raise e ∧
   List.filter is_checkout_statement (statements (trace o)) = [] ∧
   self (final o) = self Demo.switched).
Proof.
  intros v e oc.
  assert (Edge.quoted_run_params !! "run_id" = Some v) as H1
    by (vm_compute; reflexivity).
  assert (res oc = Raise e) as H2 by (vm_compute; reflexivity).
  refine (conj H1 (conj H2 _)).
  exact (after_run_skips_restore_when_commit_raises
           Edge.quoted_run_params v Demo.switched e H1 H2).
Defined.

Lemma after_run_without_original_branch_witness :
  let v := PyStr "2021-03-01T12.00.00.000Z" in
  let m := Machine Demo.hooks Demo.db in
  Demo.plain_run_params !! "run_id" = Some v ∧
  _original_branch (self m) = PyNone ∧
  after_pipeline_run Demo.plain_run_params m =
    _commit ("Update from kedro run: " +:+ py_str v) m.
Proof.
  intros v m.
  assert (Demo.plain_run_params !! "run_id" = Some v) as H1
    by (vm_compute; reflexivity).
  refine (conj H1 (conj eq_refl _)).
  exact (after_run_without_original_branch_is_commit
           Demo.plain_run_params v m H1 eq_refl).
Defined.

Lemma before_run_extra_params_not_a_mapping_witness :
  let m := Machine Demo.hooks Demo.db in
  (Edge.none_extra_params !! "extra_params" = Some PyNone ∧
   ∃ msg, before_pipeline_run Edge.none_extra_params m =
          Outcome (Raise (TypeError msg)) m []) ∧
  (Edge.text_extra_params !! "extra_params" = Some (PyStr "fast") ∧
   String.index 0 "branch" "fast" = None ∧
   before_pipeline_run Edge.text_extra_params m = Outcome (Ok PyNone) m []) ∧
  (Edge.branch_text_extra_params !! "extra_params" = Some (PyStr "branch:dev") ∧
   String.index 0 "branch" "branch:dev" = Some 0 ∧
   ∃ msg, before_pipeline_run Edge.branch_text_extra_params m =
          Outcome (Raise (TypeError msg)) m []).
Proof.
  intros m.
  assert (Edge.none_extra_params !! "extra_params" = Some PyNone) as H1
    by (vm_compute; reflexivity).
  assert (Edge.text_extra_params !! "extra_params" = Some (PyStr "fast")) as H2
    by (vm_compute; reflexivity).
  assert (Edge.branch_text_extra_params !! "extra_params"
          = Some (PyStr "branch:dev")) as H3 by (vm_compute; reflexivity).
  refine (conj (conj H1 _) (conj (conj H2 (conj eq_refl _))
                                 (conj H3 (conj eq_refl _)))).
  - exact (proj1 (before_run_extra_params_not_a_mapping
                    Edge.none_extra_params m) H1).
  - exact (proj1 (proj2 (before_run_extra_params_not_a_mapping
                           Edge.text_extra_params m)) "fast" H2 eq_refl).
  - exact (proj2 (proj2 (before_run_extra_params_not_a_mapping
                           Edge.branch_text_extra_params m))
             "branch:dev" 0 H3 eq_refl).
Defined.

Lemma hooks_give_up_witness :
  let m := Machine Demo.hooks Demo.db_down in
  let o := before_pipeline_run Demo.run_params m in
  (o = before_pipeline_run Demo.run_params m ∨
   o = after_pipeline_run Demo.run_params m) ∧
  forallb refused (connects (trace o)) = true ∧
  (statements (trace o) = [] ∧
   fetched (trace o) = [] ∧
   length (warnings (trace o)) = length (connects (trace o)) ∧
   (trace o = [] ∨ res o = Ok PyNone)).
Proof.
  intros m o.
  assert (o = before_pipeline_run Demo.run_params m ∨
          o = after_pipeline_run Demo.run_params m) as H1
    by (left; reflexivity).
  assert (forallb refused (connects (trace o)) = true) as H2
    by (vm_compute; reflexivity).
  refine (conj H1 (conj H2 _)).
  exact (hooks_give_up_when_server_refuses Demo.run_params m o H1 H2).
Defined.

Lemma checkout_statement_forms_witness :
  Dolt.sql_safe "main" = true ∧
  sql_checkout "main" ≠ sql_checkout_new "main" ∧
  sql_checkout ("-b', '" +:+ "main") = sql_checkout_new "main".
Proof.
  refine (conj eq_refl (conj _ _)).
  - exact (proj1 (proj2 (proj2 checkout_statement_forms)) "main" "main" eq_refl).
  - exact (proj2 (proj2 (proj2 checkout_statement_forms)) "main").
Defined.

Lemma run_cycle_commits_witness :
  let b := PyStr "feature-x" in
  let run_id := PyStr "2021-03-01T12.00.00.000Z" in
  Demo.run_params !! "extra_params" = Some (PyDict Demo.extra_params) ∧
  Demo.extra_params !! "branch" = Some b ∧
  is_none b = false ∧
  Demo.run_params !! "run_id" = Some run_id ∧
  Dolt.sql_safe (py_str b) = true ∧
  Dolt.sql_safe (py_str run_id) = true ∧
  Dolt.sql_safe (Dolt.active Demo.db) = true ∧
  (∀ n, Dolt.sql_safe (Dolt.hash Demo.db n) = true) ∧
  Dolt.idle Demo.db ∧
  _database Demo.hooks = Dolt.database Demo.db ∧
  (let o1 := before_pipeline_run Demo.run_params (Machine Demo.hooks Demo.db) in
   let o2 := after_pipeline_run Demo.run_params
               (Machine (self (final o1))
                        (Dolt.pipeline_writes ["orders"] (server (final o1)))) in
   let message := "Update from kedro run: " +:+ py_str run_id in
   let ref := Dolt.hash Demo.db (length (Dolt.commits Demo.db)) in
   Dolt.active (server (final o2)) = Dolt.active Demo.db ∧
   Dolt.changed (server (final o2)) = [] ∧
   match ["orders"] ++ Dolt.changed Demo.db with
   | [] =>
       res o2 = Ok PyNone ∧
       Dolt.commits (server (final o2)) = Dolt.commits Demo.db
   | _ :: _ =>
       res o2 = Ok (PyStr ref) ∧
       Dolt.commits (server (final o2)) =
         (py_str b, message, ref) :: Dolt.commits Demo.db
   end).
Proof.
  intros b run_id.
  assert (Demo.run_params !! "extra_params" = Some (PyDict Demo.extra_params))
    as H1 by (vm_compute; reflexivity).
  assert (Demo.extra_params !! "branch" = Some b) as H2
    by (vm_compute; reflexivity).
  assert (Demo.run_params !! "run_id" = Some run_id) as H4
    by (vm_compute; reflexivity).
  assert (∀ n, Dolt.sql_safe (Dolt.hash Demo.db n) = true) as H8
    by (intros n; reflexivity).
  assert (Dolt.idle Demo.db) as H9 by (repeat split; reflexivity).
  refine (conj H1 (conj H2 (conj eq_refl (conj H4 (conj eq_refl (conj eq_refl
            (conj eq_refl (conj H8 (conj H9 (conj eq_refl _)))))))))).
  exact (run_cycle_commits_on_requested_branch
           Demo.run_params Demo.extra_params b run_id Demo.hooks Demo.db
           ["orders"] H1 H2 eq_refl H4 eq_refl eq_refl eq_refl H8 H9 eq_refl).
Defined.

End MoreWitnesses.
